(** * pyNova: the serial driver of the Nova laser power meter

    A shallow embedding of [pyNova.py] and the properties of its protocol
    layer: command framing, classification of the bytes read back, the two
    lookup tables, the simulation guard and the aggregated info query.

    The driver is Python 2 code ([b'{0}'.format], [str] concatenation of
    the bytes read), so a [str] is a byte string: Rocq's [string]. *)

From Stdlib Require Import ZArith QArith Ascii String Lia.
From stdpp Require Import gmap strings list fin_maps pretty.

Local Open Scope string_scope.

(** ** Python values, exceptions and results *)

(** The values the driver stores in attributes or hands around. *)
Inductive pyval : Type :=
  | PyNone
  | PyBool (b : bool)
  | PyInt (n : Z)
  | PyStr (s : string)
  | PyTable (kv : list (string * Z))   (* a dict of str to int *)
  | PyMethod (name : string)           (* a method bound to the instance *)
  | PySerial.                          (* a serial.Serial object *)

(** Truth value testing, as [if] and [not] do it. *)
Definition truthy (v : pyval) : bool :=
  match v with
  | PyNone => false
  | PyBool b => b
  | PyInt n => negb (n =? 0)%Z
  | PyStr s => negb (String.eqb s "")
  | PyTable kv => match kv with [] => false | _ => true end
  | PyMethod _ => true
  | PySerial => true
  end.

(** The exceptions that can leave the driver.  [Hang] stands for a call
    that does not return (a blocking read on an empty line). *)
Inductive pyexc : Type :=
  | Exception_ (msg : string)
  | KeyError (key : string)
  | IndexError (msg : string)
  | ValueError (msg : string)
  | AttributeError (name : string)
  | SerialException (msg : string)
  | Hang.

Inductive outcome (A : Type) : Type :=
  | Return (a : A)
  | Raise (e : pyexc).
Arguments Return {A} a.
Arguments Raise {A} e.

Definition is_return {A} (o : outcome A) : bool :=
  match o with Return _ => true | Raise _ => false end.

(** ** Strings: the [str] operations the driver uses *)

Definition CR : ascii := ascii_of_nat 13.
Definition LF : ascii := ascii_of_nat 10.
Definition CRLF : string := String CR (String LF "").

(** [sub in s] *)
Fixpoint contains (sub s : string) : bool :=
  match s with
  | "" => String.eqb sub ""
  | String _ rest => String.prefix sub s || contains sub rest
  end.

(** [s[n:]] *)
Fixpoint slice_from (n : nat) (s : string) : string :=
  match n, s with
  | O, _ => s
  | S _, "" => ""
  | S k, String _ rest => slice_from k rest
  end.

(** [s.replace(old, new)] for a non-empty [old]: one pass from the left,
    occurrences that do not overlap.  [skip] counts the characters of the
    occurrence just replaced that are still to be passed over. *)
Fixpoint replace_from (old new s : string) (skip : nat) : string :=
  match s with
  | "" => ""
  | String c rest =>
      match skip with
      | S k => replace_from old new rest k
      | O =>
          if String.prefix old s
          then new +:+ replace_from old new rest (String.length old - 1)
          else String c (replace_from old new rest 0)
      end
  end.

Definition replace (old new s : string) : string := replace_from old new s 0.

(** [tpl.format(args)] for templates whose fields are positional
    ([{0}], [{12}]); [{{] and [}}] are the escaped braces. *)
Definition digit_of (c : ascii) : option nat :=
  let n := nat_of_ascii c in
  if (48 <=? n)%nat && (n <=? 57)%nat then Some (n - 48)%nat else None.

(** The index of a field and what follows its closing brace; [acc] is the
    value of the digits read so far, [seen] whether there was one. *)
Fixpoint field_index (s : string) (acc : nat) (seen : bool) : option (nat * string) :=
  match s with
  | "" => None
  | String c rest =>
      if Ascii.eqb c "}" then (if seen then Some (acc, rest) else None)
      else match digit_of c with
           | Some d => field_index rest (10 * acc + d)%nat true
           | None => None
           end
  end.

Fixpoint format_from (tpl : string) (args : list string) (skip : nat) : outcome string :=
  match tpl with
  | "" => Return ""
  | String c rest =>
      match skip with
      | S k => format_from rest args k
      | O =>
          if Ascii.eqb c "{" then
            match rest with
            | String "{" _ =>
                match format_from rest args 1 with
                | Return r => Return (String "{" r)
                | Raise e => Raise e
                end
            | _ =>
                match field_index rest 0 false with
                | None => Raise (ValueError "unsupported replacement field")
                | Some (i, after) =>
                    match args !! i with
                    | None => Raise (IndexError "tuple index out of range")
                    | Some a =>
                        match format_from rest args (String.length rest - String.length after) with
                        | Return r => Return (a +:+ r)
                        | Raise e => Raise e
                        end
                    end
                end
            end
          else if Ascii.eqb c "}" then
            match rest with
            | String "}" _ =>
                match format_from rest args 1 with
                | Return r => Return (String "}" r)
                | Raise e => Raise e
                end
            | _ => Raise (ValueError "Single '}' encountered in format string")
            end
          else
            match format_from rest args 0 with
            | Return r => Return (String c r)
            | Raise e => Raise e
            end
      end
  end.

Definition format (tpl : string) (args : list string) : outcome string :=
  format_from tpl args 0.

(** ** The constant classes *)

Module NovaCommands.
Definition FORCE_POWER : string := "FP".
Definition FORCE_ENERGY : string := "FE".
Definition GET_VERSION : string := "VE".
Definition GET_HEAD_INFO : string := "HI".
Definition GET_INSTRUMENT_INFO : string := "II".
Definition GET_UNIT : string := "SI".
Definition GET_POWER : string := "SP 10".
Definition GET_ENERGY : string := "SE 10".

Definition all : list string :=
  [FORCE_POWER; FORCE_ENERGY; GET_VERSION; GET_HEAD_INFO;
   GET_INSTRUMENT_INFO; GET_UNIT; GET_POWER; GET_ENERGY].
End NovaCommands.

Module NovaUnits.
Definition UNIT_SETUP : gmap string string :=
  list_to_map
    [("A", "Amps"); ("J", "Joules"); ("V", "Volts"); ("W", "Watts");
     ("L", "Lux"); ("X", "No measurement yet");
     ("Simulation", "Simulation")].
End NovaUnits.

Module Error.
Definition ERROR_MESSAGES : gmap string string :=
  list_to_map
    [("?PARAM ERROR", "bad operand.");
     ("?TIMEOUT: NO PULSE",
      "when the requested time period elapsed w/o pulse coming in");
     ("?HEAD NOT MEASURING POWER", "head not measure power");
     ("?NOT IN MAIN POWER SCREEN", "device is not in main screen");
     ("?HEAD NOT CONNECTED", "head is not connected to device");
     ("?UNKNOWN COMMAND", "unknown command")].
End Error.

(** ** The world outside the driver and the driver's own state *)

(** The serial line, the instrument behind it, the random generator and
    the clock.  [line] holds the bytes waiting to be read while a port is
    open; [wire] logs every frame written; [instrument] is what the device
    answers to a frame; [twister] is the sequence of 32-bit words of the
    random generator and [drawn] how many were consumed. *)
Record World : Type := mkWorld {
  openable : string → bool;
  instrument : string → string;
  line : option string;
  wire : list string;
  twister : nat → Z;
  drawn : nat;
  clock : N                          (* milliseconds slept *)
}.

(** An instance ([self], its attribute dictionary) in a world. *)
Record St : Type := mkSt {
  self : gmap string pyval;
  world : World
}.

Definition set_self (f : gmap string pyval → gmap string pyval) (st : St) : St :=
  mkSt (f (self st)) (world st).

Definition set_world (f : World → World) (st : St) : St :=
  mkSt (self st) (f (world st)).

Definition with_line (l : option string) (w : World) : World :=
  mkWorld (openable w) (instrument w) l (wire w) (twister w) (drawn w) (clock w).

Definition with_wire (fs : list string) (w : World) : World :=
  mkWorld (openable w) (instrument w) (line w) fs (twister w) (drawn w) (clock w).

Definition with_drawn (n : nat) (w : World) : World :=
  mkWorld (openable w) (instrument w) (line w) (wire w) (twister w) n (clock w).

Definition with_clock (t : N) (w : World) : World :=
  mkWorld (openable w) (instrument w) (line w) (wire w) (twister w) (drawn w) t.

(** Computations: a state passed along, and a value or an exception.  The
    state an exception leaves behind is kept, as in Python. *)
Definition M (A : Type) : Type := St → outcome A * St.

#[global] Instance M_ret : MRet M := λ A a st, (Return a, st).
#[global] Instance M_bind : MBind M := λ A B f m st,
  match m st with
  | (Return a, st') => f a st'
  | (Raise e, st') => (Raise e, st')
  end.

Definition raise {A} (e : pyexc) : M A := λ st, (Raise e, st).

(** [try: body except: handler] with a bare [except]. *)
Definition try_except {A} (body handler : M A) : M A := λ st,
  match body st with
  | (Return a, st') => (Return a, st')
  | (Raise _, st') => handler st'
  end.

Definition lift {A} (o : outcome A) : M A := λ st, (o, st).

(** [d[k]] *)
Definition getitem (d : gmap string string) (k : string) : outcome string :=
  match d !! k with
  | Some v => Return v
  | None => Raise (KeyError k)
  end.

(** *** The serial.Serial object *)

Module Serial.
(** [serial.Serial(port=..., ...)]: the port name alone decides whether
    the port opens; the line settings are passed along. *)
Definition new (port : pyval) (settings : list pyval) : M pyval := λ st,
  match port with
  | PyStr p =>
      if openable (world st) p
      then (Return PySerial, set_world (with_line (Some "")) st)
      else (Raise (SerialException "could not open port"), st)
  | _ => (Raise (SerialException "could not open port"), st)
  end.

(** A method call on what [self.connection] holds. *)
Definition call {A} (conn : pyval) (name : string) (m : string → M A) : M A := λ st,
  match conn with
  | PySerial =>
      match line (world st) with
      | Some buf => m buf st
      | None => (Raise (SerialException "port not open"), st)
      end
  | _ => (Raise (AttributeError name), st)
  end.

Definition flush (conn : pyval) : M unit :=
  call conn "flush" (λ _, mret tt).

Definition reset_input_buffer (conn : pyval) : M unit :=
  call conn "reset_input_buffer" (λ _ st, (Return tt, set_world (with_line (Some "")) st)).

Definition reset_output_buffer (conn : pyval) : M unit :=
  call conn "reset_output_buffer" (λ _, mret tt).

(** The frame goes out and the instrument's answer is queued. *)
Definition write (conn : pyval) (data : string) : M unit :=
  call conn "write" (λ buf st,
    (Return tt,
     set_world (λ w, with_line (Some (buf +:+ instrument w data))
                       (with_wire (wire w ++ [data]) w)) st)).

Definition inWaiting (conn : pyval) : M nat :=
  call conn "inWaiting" (λ buf, mret (String.length buf)).

(** [read(1)]; with nothing waiting the call blocks. *)
Definition read1 (conn : pyval) : M string :=
  call conn "read" (λ buf st,
    match buf with
    | "" => (Raise Hang, st)
    | String c rest => (Return (String c ""), set_world (with_line (Some rest)) st)
    end).

Definition close (conn : pyval) : M unit := λ st,
  match conn with
  | PySerial => (Return tt, set_world (with_line None) st)
  | _ => (Raise (AttributeError "close"), st)
  end.
End Serial.

(** *** time.sleep and random.random *)

Definition sleep (ms : N) : M unit := λ st,
  (Return tt, set_world (λ w, with_clock (clock w + ms)%N w) st).

(** One 32-bit word of the generator. *)
Definition genrand_int32 : M Z := λ st,
  let w := world st in
  (Return (Z.land (twister w (drawn w)) 4294967295),
   set_world (with_drawn (S (drawn w))) st).

(** [random.random()]: 27 bits of one word and 26 of the next make a
    53-bit numerator over 2^53. *)
Definition random_random : M Q :=
  x ← genrand_int32;
  y ← genrand_int32;
  let a := Z.shiftr x 5 in
  let b := Z.shiftr y 6 in
  mret ((a * 67108864 + b) # 9007199254740992).

(** *** float(str) *)

Definition is_space (c : ascii) : bool :=
  let n := nat_of_ascii c in
  ((9 <=? n)%nat && (n <=? 13)%nat) || (n =? 32)%nat.

Fixpoint lstrip (s : string) : string :=
  match s with
  | String c rest => if is_space c then lstrip rest else s
  | "" => ""
  end.

Fixpoint all_space (s : string) : bool :=
  match s with
  | String c rest => is_space c && all_space rest
  | "" => true
  end.

(** A run of decimal digits: their value on top of [acc], how many there
    were, and the rest. *)
Fixpoint digits (s : string) (acc : Z) (n : nat) : Z * nat * string :=
  match s with
  | String c rest =>
      match digit_of c with
      | Some d => digits rest (10 * acc + Z.of_nat d)%Z (S n)
      | None => (acc, n, s)
      end
  | "" => (acc, n, "")
  end.

Definition sign (s : string) : bool * string :=
  match s with
  | String "-" rest => (true, rest)
  | String "+" rest => (false, rest)
  | _ => (false, s)
  end.

(** [m * 10^e] *)
Definition scale10 (m e : Z) : Q :=
  if (0 <=? e)%Z then (m * 10 ^ e) # 1 else m # Z.to_pos (10 ^ (- e)).

(** Decimal literals with an optional fraction and exponent, surrounded by
    optional white space.  A float is the decimal it denotes: rounding to
    binary64, infinities and NaN are left out of the model. *)
Definition float (s : string) : outcome Q :=
  let bad := Raise (ValueError ("could not convert string to float: " +:+ s)) in
  let '(neg, s1) := sign (lstrip s) in
  let '(ip, ni, s2) := digits s1 0 0 in
  let '(mant, nf, s3) :=
    match s2 with
    | String "." r => digits r ip 0
    | _ => (ip, O, s2)
    end in
  if (ni + nf =? 0)%nat then bad else
  let expo :=
    match s3 with
    | String c r =>
        if Ascii.eqb c "e" || Ascii.eqb c "E" then
          let '(eneg, r1) := sign r in
          let '(ev, ne, r2) := digits r1 0 0 in
          if (ne =? 0)%nat then None else Some (if eneg then (- ev)%Z else ev, r2)
        else Some (0%Z, s3)
    | "" => Some (0%Z, "")
    end in
  match expo with
  | None => bad
  | Some (e, s4) =>
      if all_space s4
      then Return (scale10 (if neg then - mant else mant) (e - Z.of_nat nf))
      else bad
  end.

(** ** class NovaSerialDriver *)

Module NovaSerialDriver.

Definition BAUDRATES : list (string * Z) :=
  [("300", 4%Z); ("1200", 5%Z); ("4800", 6%Z); ("9600", 1%Z); ("19200", 2%Z)].
Definition ERROR_CHAR : string := "?".
Definition COMMAND_CHAR : string := "$".
Definition RESULT_CHAR : string := "*".

(** The attributes of the class: its constants and its methods (the
    names with two leading underscores in their mangled form). *)
Definition class_dict : gmap string pyval :=
  list_to_map
    [("BAUDRATES", PyTable BAUDRATES);
     ("ERROR_CHAR", PyStr ERROR_CHAR);
     ("COMMAND_CHAR", PyStr COMMAND_CHAR);
     ("RESULT_CHAR", PyStr RESULT_CHAR);
     ("__init__", PyMethod "__init__");
     ("_NovaSerialDriver__setup_connection", PyMethod "__setup_connection");
     ("open", PyMethod "open");
     ("close", PyMethod "close");
     ("simulate_device", PyMethod "simulate_device");
     ("_NovaSerialDriver__build_command_string", PyMethod "__build_command_string");
     ("_NovaSerialDriver__send_receive_data", PyMethod "__send_receive_data");
     ("_get_version", PyMethod "_get_version");
     ("_get_head_info", PyMethod "_get_head_info");
     ("_get_instrument_info", PyMethod "_get_instrument_info");
     ("_get_unit", PyMethod "_get_unit");
     ("_extract_received_data", PyMethod "_extract_received_data");
     ("_format_numeric_value", PyMethod "_format_numeric_value");
     ("get_infos", PyMethod "get_infos");
     ("get_power", PyMethod "get_power");
     ("serial_ports", PyMethod "serial_ports")].

(** [self.name]: the instance dictionary first, then the class. *)
Definition getattr (name : string) : M pyval := λ st,
  match self st !! name with
  | Some v => (Return v, st)
  | None =>
      match class_dict !! name with
      | Some v => (Return v, st)
      | None => (Raise (AttributeError name), st)
      end
  end.

(** [self.name = v] *)
Definition setattr (name : string) (v : pyval) : M unit := λ st,
  (Return tt, set_self (insert name v) st).

Definition __init__ (com_port baudrate : pyval) : M unit :=
  setattr "connection" PyNone;;
  setattr "com_port" com_port;;
  setattr "baudrate" baudrate;;
  setattr "parity" (PyStr "N");;
  setattr "cts_line" (PyBool true);;
  setattr "dtr_rts_lines" (PyBool false);;
  setattr "stop_bit" (PyInt 1);;
  setattr "data_bits" (PyInt 8);;
  setattr "siumulation" (PyBool false).

Definition __setup_connection : M unit :=
  try_except
    (port ← getattr "com_port";
     baudrate ← getattr "baudrate";
     bytesize ← getattr "data_bits";
     parity ← getattr "parity";
     stopbits ← getattr "stop_bit";
     dsrdtr ← getattr "dtr_rts_lines";
     rtscts ← getattr "cts_line";
     conn ← Serial.new port [baudrate; bytesize; parity; stopbits; dsrdtr; rtscts];
     setattr "connection" conn;;
     conn ← getattr "connection"; Serial.flush conn;;
     conn ← getattr "connection"; Serial.reset_input_buffer conn;;
     conn ← getattr "connection"; Serial.reset_output_buffer conn)
    (raise (Exception_ "connection could not be established!")).

Definition open : M unit :=
  flag ← getattr "simulate_device";
  if negb (truthy flag) then __setup_connection else mret tt.

Definition close : M unit :=
  flag ← getattr "simulate_device";
  if negb (truthy flag)
  then conn ← getattr "connection"; Serial.close conn
  else mret tt.

Definition simulate_device (simulation : pyval) : M unit :=
  setattr "simulation" simulation.

Definition __build_command_string (cmd : string) : outcome string :=
  format ("{0}{1}" +:+ CRLF) [COMMAND_CHAR; cmd].

Definition _extract_received_data (data : string) : outcome string :=
  if contains RESULT_CHAR data then Return (slice_from 1 data)
  else if contains ERROR_CHAR data then getitem Error.ERROR_MESSAGES data
  else Raise (Exception_ "returned string has not the defined characters in it!").

(** The [while] loop of [__send_receive_data]; [fuel] bounds its turns. *)
Fixpoint drain (fuel : nat) (result : string) : M string :=
  match fuel with
  | O => raise Hang
  | S fuel' =>
      conn ← getattr "connection";
      n ← Serial.inWaiting conn;
      if (0 <? n)%nat
      then conn ← getattr "connection";
           b ← Serial.read1 conn;
           drain fuel' (result +:+ b)
      else mret result
  end.

(** No byte arrives while the loop runs, so one turn for each byte
    waiting and one for the test that ends the loop are enough. *)
Definition turns (st : St) : nat :=
  match line (world st) with
  | Some buf => S (String.length buf)
  | None => 1
  end.

Definition __send_receive_data (cmd : string) : M string :=
  frame ← lift (__build_command_string cmd);
  bytes ← lift (format "{0}" [frame]);
  conn ← getattr "connection";
  Serial.write conn bytes;;
  let result := "" in
  sleep 500;;
  result ← (λ st, drain (turns st) result st);
  data ← lift (_extract_received_data result);
  mret (replace CRLF "" data).

Definition _get_version : M string :=
  flag ← getattr "simulate_device";
  if truthy flag then mret "Simulation"
  else __send_receive_data NovaCommands.GET_VERSION.

Definition _get_head_info : M string :=
  flag ← getattr "simulate_device";
  if truthy flag then mret "Simulation"
  else __send_receive_data NovaCommands.GET_HEAD_INFO.

Definition _get_instrument_info : M string :=
  flag ← getattr "simulate_device";
  if truthy flag then mret "Simulation"
  else __send_receive_data NovaCommands.GET_INSTRUMENT_INFO.

Definition _get_unit : M string :=
  flag ← getattr "simulate_device";
  if truthy flag then mret "Simulation"
  else __send_receive_data NovaCommands.GET_UNIT.

Definition _format_numeric_value (value_string : string) : outcome Q :=
  float value_string.

Definition get_infos : M (gmap string string) :=
  let temp_dict : gmap string string := ∅ in
  v ← _get_version;
  let temp_dict := <["ROM Version" := v]> temp_dict in
  v ← _get_head_info;
  let temp_dict := <["Head Info" := v]> temp_dict in
  v ← _get_instrument_info;
  let temp_dict := <["Instrument Info" := v]> temp_dict in
  u ← _get_unit;
  v ← lift (getitem NovaUnits.UNIT_SETUP u);
  let temp_dict := <["Unit" := v]> temp_dict in
  mret temp_dict.

Definition get_power : M Q :=
  flag ← getattr "simulate_device";
  if truthy flag then random_random
  else s ← __send_receive_data NovaCommands.GET_POWER;
       lift (_format_numeric_value s).

End NovaSerialDriver.

Import NovaSerialDriver.

(** A new driver object: [NovaSerialDriver(com_port, baudrate)]. *)
Definition construct (com_port baudrate : pyval) (w : World) : St :=
  snd (__init__ com_port baudrate (mkSt ∅ w)).

(** The calls of the public interface, and driver objects as callers can
    make them: constructed, then used through these calls. *)
Inductive api_call : Type :=
  | Open
  | Close
  | Simulate (simulation : pyval)
  | GetVersion
  | GetHeadInfo
  | GetInstrumentInfo
  | GetUnit
  | GetInfos
  | GetPower.

Definition perform (c : api_call) (st : St) : St :=
  match c with
  | Open => snd (open st)
  | Close => snd (close st)
  | Simulate v => snd (simulate_device v st)
  | GetVersion => snd (_get_version st)
  | GetHeadInfo => snd (_get_head_info st)
  | GetInstrumentInfo => snd (_get_instrument_info st)
  | GetUnit => snd (_get_unit st)
  | GetInfos => snd (get_infos st)
  | GetPower => snd (get_power st)
  end.

Definition session (com_port baudrate : pyval) (w : World) (calls : list api_call) : St :=
  foldl (λ st c, perform c st) (construct com_port baudrate w) calls.

(** The test of every guard: [if(self.simulate_device)]. *)
Definition simulation_active (st : St) : bool :=
  match fst (getattr "simulate_device" st) with
  | Return flag => truthy flag
  | Raise _ => false
  end.

(** The instance dictionary has no entry that hides the method
    [simulate_device]. *)
Definition unshadowed (st : St) : Prop := self st !! "simulate_device" = None.

(** A driver object holding an open port with nothing waiting on it. *)
Definition connected (st : St) : Prop :=
  self st !! "connection" = Some PySerial ∧ line (world st) = Some "".

(** The frame that goes out for a command. *)
Definition frame (cmd : string) : string := COMMAND_CHAR +:+ cmd +:+ CRLF.

(** The state a completed exchange leaves: the frame on the wire, the
    line drained, half a second gone. *)
Definition exchanged (cmd : string) (st : St) : St :=
  set_world (λ w, with_clock (clock w + 500)%N
                    (with_line (Some "") (with_wire (wire w ++ [frame cmd]) w))) st.

(** [c] is one of the characters of [s]. *)
Definition occurs (c : ascii) (s : string) : Prop := In c (list_ascii_of_string s).

(** The classification of a result in the words of the specification:
    the marker character is taken out of the data wherever it stands ... *)
Fixpoint spec_strip_marker (data : string) : string :=
  match data with
  | "" => ""
  | String c rest => if Ascii.eqb c "*" then rest else String c (spec_strip_marker rest)
  end.

(** ... and the CR LF at the end of the data, if there is one, is removed. *)
Fixpoint spec_strip_line_end (data : string) : string :=
  match data with
  | "" => ""
  | String c rest =>
      if String.eqb data CRLF then "" else String c (spec_strip_line_end rest)
  end.

(** The dictionary [get_infos] builds. *)
Definition device_info (version head instr unit : string) : gmap string string :=
  <["Unit" := unit]>
    (<["Instrument Info" := instr]>
       (<["Head Info" := head]>
          (<["ROM Version" := version]> ∅))).

(** A world for examples: every port opens, the instrument answers every
    frame with [reply], the generator yields the words of [words]. *)
Definition scripted (reply : string) (words : list Z) : World :=
  mkWorld (λ _, true) (λ _, reply) None [] (λ i, nth i words 0%Z) 0 0.

(** A driver on the bench: constructed on that world and its port opened
    by [__setup_connection]. *)
Definition bench (reply : string) : St :=
  snd (__setup_connection (construct (PyStr "COM1") (PyInt 9600) (scripted reply []))).

(** The same, after its caller has put a false flag in the place of the
    method: [driver.simulate_device = False]. *)
Definition bench_real (reply : string) : St :=
  snd (__setup_connection
         (snd (setattr "simulate_device" (PyBool false)
                 (construct (PyStr "COM1") (PyInt 9600) (scripted reply []))))).

(** ** serial_ports and the machine it runs on *)

(** What [serial_ports] asks of the machine: [sys.platform] and
    [glob.glob]. *)
Record Host : Type := mkHost {
  platform : string;
  glob : string → list string
}.

(** How [serial_ports] ends: with its list, with the [EnvironmentError] it
    raises itself, or with an exception of a probe that its [except] clause
    does not name. *)
Inductive ports_outcome : Type :=
  | Ports (names : list string)
  | EnvironmentError (msg : string)
  | Escaped (e : pyexc).

(** [s = serial.Serial(port)] and [s.close()]: a second object, opened and
    closed at once, so the line of the driver's own object stays as it is;
    it opens when the port can be opened. *)
Definition probe (port : string) : M unit := λ st,
  if openable (world st) port
  then (Return tt, st)
  else (Raise (SerialException "could not open port"), st).

(** The [for] loop with its [try] and [except (OSError, serial.SerialException)]. *)
Fixpoint probe_each (ports result : list string) (st : St) : ports_outcome * St :=
  match ports with
  | [] => (Ports result, st)
  | port :: rest =>
      match probe port st with
      | (Return _, st') => probe_each rest (result ++ [port])%list st'
      | (Raise (SerialException _), st') => probe_each rest result st'
      | (Raise e, st') => (Escaped e, st')
      end
  end.

(** ['COM%s' % (i + 1) for i in range(256)] *)
Definition com_ports : list string :=
  (λ i : nat, "COM" +:+ pretty (i + 1)%nat) <$> seq 0 256.

Definition serial_ports (host : Host) (st : St) : ports_outcome * St :=
  if String.prefix "win" (platform host) then
    probe_each com_ports [] st
  else if String.prefix "linux" (platform host) || String.prefix "cygwin" (platform host) then
    probe_each (glob host "/dev/tty[A-Za-z]*") [] st
  else if String.prefix "darwin" (platform host) then
    probe_each (glob host "/dev/tty.*") [] st
  else (EnvironmentError "Unsupported platform", st).

(** ** Reading a run of interface calls *)

(** The argument of the last [simulate_device] among the calls. *)
Definition last_simulate (calls : list api_call) : option pyval :=
  foldl (λ acc c, match c with Simulate v => Some v | _ => acc end) None calls.

(** How many of the calls are [get_power]. *)
Definition power_calls (calls : list api_call) : nat :=
  List.length (List.filter (λ c, match c with GetPower => true | _ => false end) calls).

(** The bytes handed to [_extract_received_data], classified, with the
    line ends taken out of what it returns: the end of [__send_receive_data]. *)
Definition classified (data : string) : outcome string :=
  match _extract_received_data data with
  | Return text => Return (replace CRLF "" text)
  | Raise e => Raise e
  end.

(** The object has the attributes the constructor gives it for the line
    settings. *)
Definition configured (st : St) : Prop :=
  Forall (λ name, is_Some (self st !! name))
    ["baudrate"; "data_bits"; "parity"; "stop_bit"; "dtr_rts_lines"; "cts_line"].

(** * Properties *)

(** ** The library functions on examples *)

Example format_frame : format ("{0}{1}" +:+ CRLF) ["$"; "VE"] = Return ("$VE" +:+ CRLF).
Proof. reflexivity. Qed.

Example format_braces : format "{{{0}}}" ["x"] = Return "{x}".
Proof. reflexivity. Qed.

Example format_missing : format "{0}{1}" ["x"] = Raise (IndexError "tuple index out of range").
Proof. reflexivity. Qed.

Example replace_all : replace CRLF "" ("a" +:+ CRLF +:+ "b" +:+ CRLF) = "ab".
Proof. reflexivity. Qed.

Example replace_once_through :
  replace CRLF "" (String CR (String CR (String LF (String LF "")))) = CRLF.
Proof. reflexivity. Qed.

Example float_sci : float "1.23E+01" = Return (123 # 10).
Proof. reflexivity. Qed.

Example float_pi : float "3.14" = Return (314 # 100).
Proof. reflexivity. Qed.

Example float_abc : is_return (float "abc") = false.
Proof. reflexivity. Qed.

Example lookup_unit_watts : NovaUnits.UNIT_SETUP !! "W" = Some "Watts".
Proof. reflexivity. Qed.

Example lookup_unit_none_yet : NovaUnits.UNIT_SETUP !! "X" = Some "No measurement yet".
Proof. reflexivity. Qed.

Example lookup_unit_unmapped : getitem NovaUnits.UNIT_SETUP "Q" = Raise (KeyError "Q").
Proof. reflexivity. Qed.

(** ** Strings *)

Lemma prefix_cons (a b : ascii) (s1 s2 : string) :
  String.prefix (String a s1) (String b s2) = Ascii.eqb a b && String.prefix s1 s2.
Proof.
  cbn [String.prefix]. destruct (ascii_dec a b) as [->|Hne].
  - rewrite Ascii.eqb_refl. reflexivity.
  - apply Ascii.eqb_neq in Hne. rewrite Hne. reflexivity.
Qed.

Lemma prefix_nil_l (s : string) : String.prefix "" s = true.
Proof. destruct s; reflexivity. Qed.

Lemma prefix_char (c a : ascii) (rest : string) :
  String.prefix (String c "") (String a rest) = Ascii.eqb c a.
Proof. rewrite prefix_cons, prefix_nil_l. apply andb_true_r. Qed.

Lemma contains_cons (sub : string) (a : ascii) (rest : string) :
  contains sub (String a rest) = String.prefix sub (String a rest) || contains sub rest.
Proof. reflexivity. Qed.

Lemma contains_char (c : ascii) (s : string) :
  contains (String c "") s = true ↔ occurs c s.
Proof.
  unfold occurs. induction s as [|a rest IH].
  - cbn. split; [discriminate | tauto].
  - rewrite contains_cons, prefix_char, orb_true_iff, IH. cbn [list_ascii_of_string In].
    rewrite Ascii.eqb_eq. split; intros [H|H]; auto.
Qed.

Lemma contains_char_false (c : ascii) (s : string) :
  contains (String c "") s = false ↔ ¬ occurs c s.
Proof.
  rewrite <- contains_char. destruct (contains (String c "") s); split; congruence.
Qed.

Lemma append_cons (c : ascii) (s t : string) : String c s +:+ t = String c (s +:+ t).
Proof. reflexivity. Qed.

Lemma append_nil_l (t : string) : "" +:+ t = t.
Proof. reflexivity. Qed.

Lemma prefix_crlf_app (p : string) :
  String.prefix CRLF p = false → p ≠ "" → String.prefix CRLF (p +:+ CRLF) = false.
Proof.
  unfold CRLF. destruct p as [|c [|d r]];
    rewrite ?append_cons, ?append_nil_l; try congruence.
  - intros _ _. rewrite (prefix_cons CR c), (prefix_cons LF CR).
    destruct (Ascii.eqb CR c); reflexivity.
  - rewrite (prefix_cons CR c), (prefix_cons LF d), (prefix_cons CR c), (prefix_cons LF d).
    rewrite !prefix_nil_l. intros H _. exact H.
Qed.

(** A payload without CRLF comes back whole when the CRLF that ends the
    line is removed. *)
Lemma replace_crlf_payload (p : string) :
  contains CRLF p = false → replace CRLF "" (p +:+ CRLF) = p.
Proof.
  unfold replace. induction p as [|c rest IH]; intros H.
  - reflexivity.
  - rewrite contains_cons in H. apply orb_false_iff in H as [Hp Hc].
    rewrite append_cons. cbn [replace_from].
    rewrite <- append_cons, prefix_crlf_app by (assumption || discriminate).
    rewrite IH by assumption. reflexivity.
Qed.

(** ** Attribute lookup and the simulation guard *)

Lemma bind_run {A B} (m : M A) (f : A → M B) (st : St) :
  (m ≫= f) st =
  match m st with
  | (Return a, st') => f a st'
  | (Raise e, st') => (Raise e, st')
  end.
Proof. reflexivity. Qed.

Lemma getattr_instance (name : string) (v : pyval) (st : St) :
  self st !! name = Some v → getattr name st = (Return v, st).
Proof. intros H. unfold getattr. rewrite H. reflexivity. Qed.

Lemma getattr_class (name : string) (v : pyval) (st : St) :
  self st !! name = None → class_dict !! name = Some v →
  getattr name st = (Return v, st).
Proof. intros H1 H2. unfold getattr. rewrite H1, H2. reflexivity. Qed.

Lemma guard_unshadowed (st : St) :
  unshadowed st → getattr "simulate_device" st = (Return (PyMethod "simulate_device"), st).
Proof. intros H. apply getattr_class; [exact H | reflexivity]. Qed.

Lemma unshadowed_active (st : St) : unshadowed st → simulation_active st = true.
Proof. intros H. unfold simulation_active. rewrite guard_unshadowed by exact H. reflexivity. Qed.

(** The guard always evaluates: the class has the attribute. *)
Lemma guard_value (st : St) :
  ∃ flag, getattr "simulate_device" st = (Return flag, st)
          ∧ simulation_active st = truthy flag.
Proof.
  unfold simulation_active, getattr. destruct (self st !! "simulate_device") as [v|].
  - exists v. split; reflexivity.
  - exists (PyMethod "simulate_device"). split; reflexivity.
Qed.

Ltac guard_is H :=
  let flag := fresh "flag" in
  let Hg := fresh "Hg" in
  let Hv := fresh "Hv" in
  match type of H with
  | simulation_active ?st = _ =>
      destruct (guard_value st) as (flag & Hg & Hv);
      rewrite H in Hv; rewrite bind_run, Hg, <- Hv; cbn [negb]
  end.

(** ** random.random *)

Lemma shiftr_land32_bounds (x : Z) (k : Z) :
  (0 ≤ k)%Z → (0 ≤ Z.shiftr (Z.land x 4294967295) k < 2 ^ (32 - k))%Z ∨ (32 < k)%Z.
Proof.
  intros Hk. destruct (Z_lt_le_dec 32 k) as [Hlt|Hle]; [right; exact Hlt | left].
  assert (Hx : (0 ≤ Z.land x 4294967295 < 2 ^ 32)%Z).
  { change 4294967295%Z with (Z.ones 32). rewrite Z.land_ones by lia.
    apply Z.mod_pos_bound. lia. }
  rewrite Z.shiftr_div_pow2 by lia. split.
  - apply Z.div_pos; [lia | apply Z.pow_pos_nonneg; lia].
  - apply Z.div_lt_upper_bound; [apply Z.pow_pos_nonneg; lia|].
    rewrite <- Z.pow_add_r by lia. replace (k + (32 - k))%Z with 32%Z by lia. lia.
Qed.

(** [random.random()] always returns, uses two words of the generator and
    touches nothing else, and its value lies in [0, 1). *)
Lemma random_random_unit (st : St) :
  ∃ q : Q,
    random_random st = (Return q, set_world (with_drawn (S (S (drawn (world st))))) st)
    ∧ (0 <= q)%Q ∧ (q < 1)%Q.
Proof.
  destruct st as [slf [op ins ln wr tw dr ck]].
  eexists. split; [reflexivity|].
  cbn [world twister drawn with_drawn set_world self].
  destruct (shiftr_land32_bounds (tw dr) 5) as [[Ha1 Ha2]|?]; [lia| |lia].
  destruct (shiftr_land32_bounds (tw (S dr)) 6) as [[Hb1 Hb2]|?]; [lia| |lia].
  change (2 ^ (32 - 5))%Z with 134217728%Z in Ha2.
  change (2 ^ (32 - 6))%Z with 67108864%Z in Hb2.
  unfold Qle, Qlt. cbn [Qnum Qden]. split; lia.
Qed.

(** ** The simulation branch *)

Section Simulation.
Variable st : St.
Hypothesis Hst : simulation_active st = true.

Lemma get_version_sim : _get_version st = (Return "Simulation", st).
Proof. unfold _get_version. guard_is Hst. reflexivity. Qed.

Lemma get_head_info_sim : _get_head_info st = (Return "Simulation", st).
Proof. unfold _get_head_info. guard_is Hst. reflexivity. Qed.

Lemma get_instrument_info_sim : _get_instrument_info st = (Return "Simulation", st).
Proof. unfold _get_instrument_info. guard_is Hst. reflexivity. Qed.

Lemma get_unit_sim : _get_unit st = (Return "Simulation", st).
Proof. unfold _get_unit. guard_is Hst. reflexivity. Qed.

Lemma open_sim : open st = (Return tt, st).
Proof. unfold open. guard_is Hst. reflexivity. Qed.

Lemma close_sim : close st = (Return tt, st).
Proof. unfold close. guard_is Hst. reflexivity. Qed.

Lemma get_power_sim : get_power st = random_random st.
Proof. unfold get_power. guard_is Hst. reflexivity. Qed.

Lemma get_infos_sim :
  get_infos st =
  (Return (<["Unit" := "Simulation"]>
             (<["Instrument Info" := "Simulation"]>
                (<["Head Info" := "Simulation"]>
                   (<["ROM Version" := "Simulation"]> ∅)))), st).
Proof.
  unfold get_infos.
  rewrite bind_run, get_version_sim.
  rewrite bind_run, get_head_info_sim.
  rewrite bind_run, get_instrument_info_sim.
  rewrite bind_run, get_unit_sim.
  reflexivity.
Qed.
End Simulation.

Lemma construct_unshadowed (com_port baudrate : pyval) (w : World) :
  unshadowed (construct com_port baudrate w).
Proof. reflexivity. Qed.

(** No call of the interface ever puts [simulate_device] into the
    instance dictionary. *)
Lemma perform_unshadowed (c : api_call) (st : St) :
  unshadowed st → unshadowed (perform c st).
Proof.
  intros H. pose proof (unshadowed_active st H) as Ha. destruct c; cbn [perform].
  - rewrite open_sim by exact Ha. exact H.
  - rewrite close_sim by exact Ha. exact H.
  - unfold unshadowed, simulate_device, setattr. cbn [snd self set_self].
    rewrite lookup_insert_ne by discriminate. exact H.
  - rewrite get_version_sim by exact Ha. exact H.
  - rewrite get_head_info_sim by exact Ha. exact H.
  - rewrite get_instrument_info_sim by exact Ha. exact H.
  - rewrite get_unit_sim by exact Ha. exact H.
  - rewrite get_infos_sim by exact Ha. exact H.
  - rewrite get_power_sim by exact Ha.
    destruct (random_random_unit st) as (q & -> & _). exact H.
Qed.

Lemma session_unshadowed (com_port baudrate : pyval) (w : World) (calls : list api_call) :
  unshadowed (session com_port baudrate w calls).
Proof.
  unfold session. generalize (construct_unshadowed com_port baudrate w).
  generalize (construct com_port baudrate w). induction calls as [|c calls IH]; intros st H.
  - exact H.
  - cbn [foldl]. apply IH, perform_unshadowed, H.
Qed.

(** ** The exchange with the instrument *)

Lemma append_nil_r (s : string) : s +:+ "" = s.
Proof. induction s as [|c s IH]; [reflexivity|]. rewrite append_cons, IH. reflexivity. Qed.

Lemma append_assoc (s t u : string) : (s +:+ t) +:+ u = s +:+ (t +:+ u).
Proof. induction s as [|c s IH]; [reflexivity|]. rewrite !append_cons, IH. reflexivity. Qed.

Lemma inWaiting_open (st : St) (buf : string) :
  line (world st) = Some buf →
  Serial.inWaiting PySerial st = (Return (String.length buf), st).
Proof. intros H. unfold Serial.inWaiting, Serial.call. rewrite H. reflexivity. Qed.

Lemma read1_open (st : St) (c : ascii) (rest : string) :
  line (world st) = Some (String c rest) →
  Serial.read1 PySerial st = (Return (String c ""), set_world (with_line (Some rest)) st).
Proof. intros H. unfold Serial.read1, Serial.call. rewrite H. reflexivity. Qed.

Lemma write_open (st : St) (buf data : string) :
  line (world st) = Some buf →
  Serial.write PySerial data st =
  (Return tt,
   set_world (λ w, with_line (Some (buf +:+ instrument w data))
                     (with_wire (wire w ++ [data]) w)) st).
Proof. intros H. unfold Serial.write, Serial.call. rewrite H. reflexivity. Qed.

(** The loop reads everything that waits, in order, and then ends. *)
Lemma drain_all (fuel : nat) (buf result : string) (st : St) :
  self st !! "connection" = Some PySerial →
  line (world st) = Some buf →
  String.length buf < fuel →
  drain fuel result st = (Return (result +:+ buf), set_world (with_line (Some "")) st).
Proof.
  revert buf result st. induction fuel as [|fuel IH]; intros buf result st Hc Hl Hf; [lia|].
  cbn [drain].
  rewrite bind_run, (getattr_instance _ _ _ Hc).
  rewrite bind_run, (inWaiting_open _ _ Hl).
  destruct buf as [|c rest].
  - cbn [String.length Nat.ltb Nat.leb]. rewrite append_nil_r.
    destruct st as [slf [op ins ln wr tw dr ck]]. cbn in Hl. subst ln. reflexivity.
  - cbn [String.length Nat.ltb Nat.leb].
    rewrite bind_run, (getattr_instance _ _ _ Hc).
    rewrite bind_run, (read1_open _ _ _ Hl).
    rewrite (IH rest); [| exact Hc | reflexivity | cbn [String.length] in Hf; lia].
    rewrite append_assoc. reflexivity.
Qed.

Lemma build_command_string_frame (cmd : string) :
  __build_command_string cmd = Return (frame cmd).
Proof. reflexivity. Qed.

(** With a port open, [__send_receive_data] writes the frame, waits, reads
    all that waits and classifies it. *)
Lemma send_receive_connected (cmd : string) (st : St) :
  connected st →
  __send_receive_data cmd st =
  (match _extract_received_data (instrument (world st) (frame cmd)) with
   | Return data => Return (replace CRLF "" data)
   | Raise e => Raise e
   end, exchanged cmd st).
Proof.
  intros [Hc Hl]. unfold __send_receive_data.
  rewrite bind_run, build_command_string_frame. cbn [lift].
  rewrite bind_run. change (format "{0}" [frame cmd]) with (Return (frame cmd +:+ "")).
  rewrite append_nil_r. cbn [lift].
  rewrite bind_run, (getattr_instance _ _ _ Hc).
  rewrite bind_run, (write_open _ _ _ Hl).
  rewrite bind_run. cbn [sleep].
  rewrite bind_run.
  destruct st as [slf [op ins ln wr tw dr ck]]. cbn in Hc, Hl. subst ln.
  cbn [set_world world self with_line with_wire with_clock line wire clock
       openable instrument twister drawn turns].
  rewrite !append_nil_l.
  rewrite (drain_all _ (ins (frame cmd))); [| exact Hc | reflexivity | lia].
  rewrite append_nil_l, bind_run. cbn [lift].
  destruct (_extract_received_data (ins (frame cmd))); reflexivity.
Qed.

(** ** The branch that talks to the instrument *)

Lemma exchanged_connected (cmd : string) (st : St) : connected st → connected (exchanged cmd st).
Proof. intros [Hc _]. split; [exact Hc | reflexivity]. Qed.

Lemma exchanged_active (cmd : string) (st : St) :
  simulation_active (exchanged cmd st) = simulation_active st.
Proof.
  unfold simulation_active, getattr. cbn [exchanged set_world self].
  destruct (self st !! "simulate_device"); [reflexivity|].
  destruct (class_dict !! "simulate_device"); reflexivity.
Qed.

Lemma exchanged_instrument (cmd : string) (st : St) :
  instrument (world (exchanged cmd st)) = instrument (world st).
Proof. reflexivity. Qed.

Lemma exchanged_wire (cmd : string) (st : St) :
  wire (world (exchanged cmd st)) = (wire (world st) ++ [frame cmd])%list.
Proof. reflexivity. Qed.

(** What starts with the result marker is a result: the rest of it. *)
Lemma extract_result (rest : string) :
  _extract_received_data (RESULT_CHAR +:+ rest) = Return rest.
Proof.
  unfold _extract_received_data, RESULT_CHAR. rewrite append_cons, append_nil_l.
  rewrite contains_cons, prefix_char. reflexivity.
Qed.

Section Instrument.
Variable st : St.
Hypothesis Hoff : simulation_active st = false.
Hypothesis Hconn : connected st.

Lemma get_version_real :
  _get_version st = __send_receive_data NovaCommands.GET_VERSION st.
Proof. unfold _get_version. guard_is Hoff. reflexivity. Qed.

Lemma get_head_info_real :
  _get_head_info st = __send_receive_data NovaCommands.GET_HEAD_INFO st.
Proof. unfold _get_head_info. guard_is Hoff. reflexivity. Qed.

Lemma get_instrument_info_real :
  _get_instrument_info st = __send_receive_data NovaCommands.GET_INSTRUMENT_INFO st.
Proof. unfold _get_instrument_info. guard_is Hoff. reflexivity. Qed.

Lemma get_unit_real :
  _get_unit st = __send_receive_data NovaCommands.GET_UNIT st.
Proof. unfold _get_unit. guard_is Hoff. reflexivity. Qed.

Lemma get_power_real :
  get_power st =
  (s ← __send_receive_data NovaCommands.GET_POWER; lift (_format_numeric_value s)) st.
Proof. unfold get_power. guard_is Hoff. reflexivity. Qed.

(** A well-formed answer, [*payload CR LF], gives the payload. *)
Lemma send_receive_payload (cmd payload : string) :
  contains CRLF payload = false →
  instrument (world st) (frame cmd) = RESULT_CHAR +:+ payload +:+ CRLF →
  __send_receive_data cmd st = (Return payload, exchanged cmd st).
Proof.
  intros Hp Hi. rewrite send_receive_connected by exact Hconn. rewrite Hi.
  rewrite extract_result, replace_crlf_payload by exact Hp. reflexivity.
Qed.
End Instrument.

Lemma length_append (s t : string) :
  String.length (s +:+ t) = String.length s + String.length t.
Proof. induction s as [|c s IH]; [reflexivity|]. rewrite append_cons. cbn [String.length]. lia. Qed.

Lemma spec_strip_line_end_app (payload : string) :
  spec_strip_line_end (payload +:+ CRLF) = payload.
Proof.
  induction payload as [|c rest IH]; [reflexivity|].
  rewrite append_cons. cbn [spec_strip_line_end]. rewrite IH.
  destruct (String.eqb_spec (String c (rest +:+ CRLF)) CRLF) as [E|_]; [|reflexivity].
  apply (f_equal String.length) in E. cbn [String.length CRLF] in E.
  rewrite length_append in E. cbn [String.length CRLF] in E. lia.
Qed.

(** ** Command framing *)

(** C4. For every command, and indeed for every mnemonic, the encoder
    returns (it never raises) exactly the command character, the mnemonic
    and CR LF: three characters more than the mnemonic and nothing else.
    For the eight commands of [NovaCommands] these are the frames listed. *)
Theorem build_command_string_exact :
  (∀ cmd : string,
     __build_command_string cmd = Return (COMMAND_CHAR +:+ cmd +:+ CRLF)
     ∧ String.length (COMMAND_CHAR +:+ cmd +:+ CRLF) = String.length cmd + 3)
  ∧ __build_command_string <$> NovaCommands.all =
    Return <$> ["$FP" +:+ CRLF; "$FE" +:+ CRLF; "$VE" +:+ CRLF; "$HI" +:+ CRLF;
                "$II" +:+ CRLF; "$SI" +:+ CRLF; "$SP 10" +:+ CRLF; "$SE 10" +:+ CRLF].
Proof.
  split; [|reflexivity].
  intros cmd. split; [reflexivity|].
  rewrite !length_append. cbn [String.length COMMAND_CHAR CRLF]. lia.
Qed.

(** ** Classification of the bytes read back *)

(** C9. Data with neither the result marker nor the error marker in it is
    not classified: [_extract_received_data] raises the exception that
    says so, and so does the exchange that read the data; no value is
    returned. *)
Theorem malformed_response_raises (data cmd : string) (st : St) :
  ¬ occurs "*" data → ¬ occurs "?" data →
  connected st → instrument (world st) (frame cmd) = data →
  _extract_received_data data =
    Raise (Exception_ "returned string has not the defined characters in it!")
  ∧ fst (__send_receive_data cmd st) =
    Raise (Exception_ "returned string has not the defined characters in it!").
Proof.
  intros Hr He Hc Hi.
  apply contains_char_false in Hr. apply contains_char_false in He.
  assert (Hx : _extract_received_data data =
               Raise (Exception_ "returned string has not the defined characters in it!")).
  { unfold _extract_received_data, RESULT_CHAR, ERROR_CHAR. rewrite Hr, He. reflexivity. }
  split; [exact Hx|].
  rewrite send_receive_connected by exact Hc. rewrite Hi, Hx. reflexivity.
Qed.

Lemma malformed_response_raises_witness :
  let st := bench "no marker here" in
  _extract_received_data "no marker here" =
    Raise (Exception_ "returned string has not the defined characters in it!")
  ∧ fst (__send_receive_data NovaCommands.GET_VERSION st) =
    Raise (Exception_ "returned string has not the defined characters in it!").
Proof.
  apply (malformed_response_raises "no marker here" NovaCommands.GET_VERSION
           (bench "no marker here")).
  - apply contains_char_false. reflexivity.
  - apply contains_char_false. reflexivity.
  - split; reflexivity.
  - reflexivity.
Defined.

(** C10. Data with the error marker and no result marker in it is looked
    up whole in the error table: a token of the table gives its
    description, anything else raises [KeyError] with the data; in neither
    case is the outcome the exception of a malformed response, and no
    description stands in for a token the table does not have. *)
Theorem error_token_lookup (data : string) :
  occurs "?" data → ¬ occurs "*" data →
  _extract_received_data data =
    match Error.ERROR_MESSAGES !! data with
    | Some description => Return description
    | None => Raise (KeyError data)
    end
  ∧ _extract_received_data data ≠
    Raise (Exception_ "returned string has not the defined characters in it!").
Proof.
  intros He Hr. apply contains_char in He. apply contains_char_false in Hr.
  assert (Hx : _extract_received_data data =
               match Error.ERROR_MESSAGES !! data with
               | Some description => Return description
               | None => Raise (KeyError data)
               end).
  { unfold _extract_received_data, RESULT_CHAR, ERROR_CHAR, getitem. rewrite Hr, He. reflexivity. }
  split; [exact Hx|].
  rewrite Hx. destruct (Error.ERROR_MESSAGES !! data); discriminate.
Qed.

Lemma error_token_lookup_witness :
  _extract_received_data "?UNKNOWN COMMAND" = Return "unknown command"
  ∧ _extract_received_data "?OVERRANGE" = Raise (KeyError "?OVERRANGE").
Proof.
  split.
  - refine (proj1 (error_token_lookup "?UNKNOWN COMMAND" _ _)).
    + apply contains_char. reflexivity.
    + apply contains_char_false. reflexivity.
  - refine (proj1 (error_token_lookup "?OVERRANGE" _ _)).
    + apply contains_char. reflexivity.
    + apply contains_char_false. reflexivity.
Defined.

(** C6, as the code has it.  Data with the result marker anywhere in it is
    returned without its first character, whatever that character is; when
    the marker is the first character this takes the marker out, as the
    specification words it. *)
Theorem extract_result_drops_first (data rest : string) :
  occurs "*" data →
  _extract_received_data data = Return (slice_from 1 data)
  ∧ _extract_received_data (RESULT_CHAR +:+ rest) =
    Return (spec_strip_marker (RESULT_CHAR +:+ rest))
  ∧ spec_strip_marker (RESULT_CHAR +:+ rest) = rest.
Proof.
  intros H. apply contains_char in H. split; [|split].
  - unfold _extract_received_data, RESULT_CHAR. rewrite H. reflexivity.
  - rewrite extract_result. reflexivity.
  - reflexivity.
Qed.

Lemma extract_result_drops_first_witness :
  _extract_received_data "x*1.5" = Return (slice_from 1 "x*1.5")
  ∧ _extract_received_data (RESULT_CHAR +:+ "1.5") =
    Return (spec_strip_marker (RESULT_CHAR +:+ "1.5"))
  ∧ spec_strip_marker (RESULT_CHAR +:+ "1.5") = "1.5".
Proof.
  apply (extract_result_drops_first "x*1.5" "1.5").
  apply contains_char. reflexivity.
Defined.

(** C6 as stated fails where the marker is not the first character: of
    [a*b] the code keeps the marker and drops the [a]. *)
Lemma marker_inside_not_stripped :
  occurs "*" "a*b"
  ∧ _extract_received_data "a*b" = Return "*b"
  ∧ spec_strip_marker "a*b" = "ab"
  ∧ _extract_received_data "a*b" ≠ Return (spec_strip_marker "a*b").
Proof.
  split; [apply contains_char; reflexivity|].
  split; [reflexivity|]. split; [reflexivity|]. discriminate.
Qed.

(** C5, as the code has it.  When the answer is the result marker, a
    payload with no CR LF in it, and the CR LF that ends the line, the
    exchange returns the payload: marker and line end are gone and the
    payload is the same text that was sent. *)
Theorem result_payload_roundtrip (cmd payload : string) (st : St) :
  connected st →
  contains CRLF payload = false →
  instrument (world st) (frame cmd) = RESULT_CHAR +:+ payload +:+ CRLF →
  __send_receive_data cmd st = (Return payload, exchanged cmd st)
  ∧ Return payload =
    Return (spec_strip_line_end (spec_strip_marker (RESULT_CHAR +:+ payload +:+ CRLF))).
Proof.
  intros Hc Hp Hi. split.
  - apply send_receive_payload; assumption.
  - f_equal. change (spec_strip_marker (RESULT_CHAR +:+ payload +:+ CRLF))
      with (payload +:+ CRLF).
    symmetry. apply spec_strip_line_end_app.
Qed.

Lemma result_payload_roundtrip_witness :
  let st := bench (RESULT_CHAR +:+ "1.23E+01" +:+ CRLF) in
  __send_receive_data NovaCommands.GET_POWER st =
    (Return "1.23E+01", exchanged NovaCommands.GET_POWER st)
  ∧ Return "1.23E+01" =
    Return (spec_strip_line_end (spec_strip_marker (RESULT_CHAR +:+ "1.23E+01" +:+ CRLF))).
Proof.
  apply (result_payload_roundtrip NovaCommands.GET_POWER "1.23E+01"
           (bench (RESULT_CHAR +:+ "1.23E+01" +:+ CRLF))).
  - split; reflexivity.
  - reflexivity.
  - reflexivity.
Defined.

(** C5 as stated fails for a payload with CR LF inside: every CR LF of the
    answer is removed, not only the one that ends it. *)
Lemma roundtrip_fails_on_inner_crlf :
  let payload := "a" +:+ CRLF +:+ "b" in
  let raw := RESULT_CHAR +:+ payload +:+ CRLF in
  let st := bench raw in
  connected st
  ∧ instrument (world st) (frame NovaCommands.GET_VERSION) = raw
  ∧ spec_strip_line_end (spec_strip_marker raw) = payload
  ∧ fst (__send_receive_data NovaCommands.GET_VERSION st) = Return "ab"
  ∧ fst (__send_receive_data NovaCommands.GET_VERSION st) ≠ Return payload.
Proof.
  cbv zeta. split; [split; reflexivity|].
  split; [reflexivity|]. split; [reflexivity|].
  split; [reflexivity|]. vm_compute. discriminate.
Qed.

(** ** The simulation switch *)

(** C7. With the guard true: the version is the string Simulation, the
    power is a number in [0, 1), and [open] and [close] return without
    raising and leave the object and the world, the serial line with it,
    as they were. *)
Theorem simulation_contract (st : St) :
  simulation_active st = true →
  _get_version st = (Return "Simulation", st)
  ∧ (∃ q : Q,
       get_power st = (Return q, set_world (with_drawn (S (S (drawn (world st))))) st)
       ∧ (0 <= q)%Q ∧ (q < 1)%Q)
  ∧ open st = (Return tt, st)
  ∧ close st = (Return tt, st).
Proof.
  intros H. split; [apply get_version_sim, H|].
  split; [rewrite get_power_sim by exact H; apply random_random_unit|].
  split; [apply open_sim, H | apply close_sim, H].
Qed.

Lemma simulation_contract_witness :
  let st := session (PyStr "COM1") (PyInt 9600) (scripted "" [2863311530; 1431655765]%Z)
              [Simulate (PyBool true)] in
  _get_version st = (Return "Simulation", st)
  ∧ (∃ q : Q,
       get_power st = (Return q, set_world (with_drawn (S (S (drawn (world st))))) st)
       ∧ (0 <= q)%Q ∧ (q < 1)%Q)
  ∧ open st = (Return tt, st)
  ∧ close st = (Return tt, st).
Proof.
  apply (simulation_contract
           (session (PyStr "COM1") (PyInt 9600) (scripted "" [2863311530; 1431655765]%Z)
              [Simulate (PyBool true)])).
  reflexivity.
Defined.

(** C2. Whatever calls were made on a driver object, [simulate_device]
    with any argument among them, and whatever the attributes [simulation]
    and [siumulation] hold, the guard reads the bound method and is true:
    the four text queries return Simulation, [get_power] returns a draw of
    [random.random] in [0, 1), and [open] and [close] do nothing. *)
Theorem guard_never_reads_flag
    (com_port baudrate : pyval) (w : World) (calls : list api_call) (v1 v2 : pyval) :
  let st := set_self (λ d, <["simulation" := v1]> (<["siumulation" := v2]> d))
              (session com_port baudrate w calls) in
  getattr "simulate_device" st = (Return (PyMethod "simulate_device"), st)
  ∧ simulation_active st = true
  ∧ _get_version st = (Return "Simulation", st)
  ∧ _get_head_info st = (Return "Simulation", st)
  ∧ _get_instrument_info st = (Return "Simulation", st)
  ∧ _get_unit st = (Return "Simulation", st)
  ∧ (∃ q : Q,
       get_power st = (Return q, set_world (with_drawn (S (S (drawn (world st))))) st)
       ∧ (0 <= q)%Q ∧ (q < 1)%Q)
  ∧ open st = (Return tt, st)
  ∧ close st = (Return tt, st).
Proof.
  intros st.
  assert (Hu : unshadowed st).
  { unfold st, unshadowed. cbn [set_self self].
    rewrite !lookup_insert_ne by discriminate. apply session_unshadowed. }
  pose proof (unshadowed_active st Hu) as Ha.
  split; [apply guard_unshadowed, Hu|]. split; [exact Ha|].
  split; [apply get_version_sim, Ha|]. split; [apply get_head_info_sim, Ha|].
  split; [apply get_instrument_info_sim, Ha|]. split; [apply get_unit_sim, Ha|].
  split; [rewrite get_power_sim by exact Ha; apply random_random_unit|].
  split; [apply open_sim, Ha | apply close_sim, Ha].
Qed.

(** C1, on the code.  After [simulate_device(False)] and [open()],
    whatever the instrument would answer, [get_power] does not ask it: the
    flag is stored in [simulation], yet the call changes nothing but the
    count of generator words drawn (no frame on the wire, no byte read),
    and the value returned is a random number below 1, so it is not
    12.3. *)
Theorem get_power_ignores_disabled_simulation
    (com_port baudrate : pyval) (w : World) (calls : list api_call) :
  let st := session com_port baudrate w (calls ++ [Simulate (PyBool false); Open])%list in
  self st !! "simulation" = Some (PyBool false)
  ∧ ∃ q : Q,
      get_power st = (Return q, set_world (with_drawn (S (S (drawn (world st))))) st)
      ∧ (q < 1)%Q ∧ ¬ (q == 123 # 10)%Q.
Proof.
  intros st.
  pose proof (session_unshadowed com_port baudrate w
                (calls ++ [Simulate (PyBool false); Open])%list) as Hu.
  fold st in Hu. pose proof (unshadowed_active st Hu) as Ha.
  split.
  - unfold st, session. rewrite foldl_app. cbn [foldl perform].
    set (st0 := foldl _ _ calls).
    assert (H0 : unshadowed (snd (simulate_device (PyBool false) st0))).
    { apply (perform_unshadowed (Simulate (PyBool false))).
      apply (session_unshadowed com_port baudrate w calls). }
    rewrite open_sim by (apply unshadowed_active, H0).
    cbn [snd simulate_device setattr set_self self]. apply lookup_insert_eq.
  - destruct (random_random_unit st) as (q & Hq & H0 & H1).
    exists q. rewrite get_power_sim by exact Ha.
    split; [exact Hq|]. split; [exact H1|].
    intros E. rewrite E in H1. revert H1. unfold Qlt. cbn. lia.
Qed.

(** The other branch of [get_power] does what C1 asks of it: on a driver
    whose guard is false and whose port is open, the answer
    [*1.23E+01 CR LF] makes [get_power] return 12.3. *)
Lemma get_power_instrument_branch (st : St) :
  simulation_active st = false → connected st →
  instrument (world st) (frame NovaCommands.GET_POWER) = RESULT_CHAR +:+ "1.23E+01" +:+ CRLF →
  get_power st = (Return (123 # 10), exchanged NovaCommands.GET_POWER st).
Proof.
  intros Hoff Hc Hi. rewrite get_power_real by exact Hoff.
  rewrite bind_run, (send_receive_payload st Hc _ "1.23E+01") by (reflexivity || exact Hi).
  reflexivity.
Qed.

Example get_power_failing_input :
  let st := session (PyStr "COM1") (PyInt 9600)
              (scripted (RESULT_CHAR +:+ "1.23E+01" +:+ CRLF) [2863311530; 1431655765]%Z)
              [Simulate (PyBool false); Open] in
  fst (get_power st) = Return (6004799503160661 # 9007199254740992)
  ∧ line (world (snd (get_power st))) = None
  ∧ wire (world (snd (get_power st))) = [].
Proof. cbv zeta. split; [|split]; reflexivity. Qed.

(** ** Errors the instrument reports *)

(** C3, as the code has it.  When the bytes read back are exactly the
    token [?HEAD NOT CONNECTED], the exchange returns the description
    "head is not connected to device" to its caller, as the value of the
    call. *)
Theorem head_not_connected_description (cmd : string) (st : St) :
  connected st →
  instrument (world st) (frame cmd) = "?HEAD NOT CONNECTED" →
  _extract_received_data "?HEAD NOT CONNECTED" = Return "head is not connected to device"
  ∧ __send_receive_data cmd st =
    (Return "head is not connected to device", exchanged cmd st).
Proof.
  intros Hc Hi. split; [reflexivity|].
  rewrite send_receive_connected by exact Hc. rewrite Hi. reflexivity.
Qed.

Lemma head_not_connected_description_witness :
  let st := bench "?HEAD NOT CONNECTED" in
  _extract_received_data "?HEAD NOT CONNECTED" = Return "head is not connected to device"
  ∧ __send_receive_data NovaCommands.GET_UNIT st =
    (Return "head is not connected to device", exchanged NovaCommands.GET_UNIT st).
Proof.
  apply (head_not_connected_description NovaCommands.GET_UNIT (bench "?HEAD NOT CONNECTED")).
  - split; reflexivity.
  - reflexivity.
Defined.

(** C3 as stated fails.  With the instrument answering
    [?HEAD NOT CONNECTED CR LF]: after [simulate_device(False)] and
    [open()] a query returns Simulation and raises nothing; and where the
    exchange does take place, what it raises is a [KeyError] for the
    answer with its line end, which carries no description. *)
Lemma head_not_connected_no_device_error :
  let raw := "?HEAD NOT CONNECTED" +:+ CRLF in
  let st := session (PyStr "COM1") (PyInt 9600) (scripted raw [])
              [Simulate (PyBool false); Open] in
  instrument (world st) (frame NovaCommands.GET_VERSION) = raw
  ∧ _get_version st = (Return "Simulation", st)
  ∧ is_return (fst (_get_version st)) = true
  ∧ connected (bench raw)
  ∧ fst (__send_receive_data NovaCommands.GET_VERSION (bench raw)) = Raise (KeyError raw)
  ∧ simulation_active (bench_real raw) = false
  ∧ fst (_get_version (bench_real raw)) = Raise (KeyError raw).
Proof.
  cbv zeta. split; [reflexivity|]. split; [reflexivity|]. split; [reflexivity|].
  split; [split; reflexivity|]. split; [reflexivity|]. split; reflexivity.
Qed.

(** ** The aggregated query *)

Lemma get_infos_whole (st : St) (d : gmap string string) :
  fst (get_infos st) = Return d →
  ∃ version head instr code unit,
    NovaUnits.UNIT_SETUP !! code = Some unit
    ∧ d = device_info version head instr unit.
Proof.
  unfold get_infos. rewrite bind_run.
  destruct (_get_version st) as [[v|e] st1]; [|discriminate].
  rewrite bind_run. destruct (_get_head_info st1) as [[h|e] st2]; [|discriminate].
  rewrite bind_run. destruct (_get_instrument_info st2) as [[i|e] st3]; [|discriminate].
  rewrite bind_run. destruct (_get_unit st3) as [[u|e] st4]; [|discriminate].
  rewrite bind_run. unfold lift, getitem.
  destruct (NovaUnits.UNIT_SETUP !! u) as [n|] eqn:Hn; [|discriminate].
  cbn [fst mret M_ret]. intros [= <-]. exists v, h, i, u, n. split; [exact Hn | reflexivity].
Qed.

Lemma get_infos_real (st : St) (version head instr code : string) :
  simulation_active st = false → connected st →
  contains CRLF version = false → contains CRLF head = false →
  contains CRLF instr = false → contains CRLF code = false →
  instrument (world st) (frame NovaCommands.GET_VERSION) = RESULT_CHAR +:+ version +:+ CRLF →
  instrument (world st) (frame NovaCommands.GET_HEAD_INFO) = RESULT_CHAR +:+ head +:+ CRLF →
  instrument (world st) (frame NovaCommands.GET_INSTRUMENT_INFO) = RESULT_CHAR +:+ instr +:+ CRLF →
  instrument (world st) (frame NovaCommands.GET_UNIT) = RESULT_CHAR +:+ code +:+ CRLF →
  get_infos st =
  (match NovaUnits.UNIT_SETUP !! code with
   | Some unit => Return (device_info version head instr unit)
   | None => Raise (KeyError code)
   end,
   exchanged NovaCommands.GET_UNIT
     (exchanged NovaCommands.GET_INSTRUMENT_INFO
        (exchanged NovaCommands.GET_HEAD_INFO
           (exchanged NovaCommands.GET_VERSION st)))).
Proof.
  intros Hoff Hc Hv Hh Hi Hu Rv Rh Ri Ru. unfold get_infos.
  rewrite bind_run, get_version_real by exact Hoff.
  rewrite (send_receive_payload st Hc _ version) by assumption.
  set (st1 := exchanged NovaCommands.GET_VERSION st).
  assert (Hoff1 : simulation_active st1 = false) by (unfold st1; rewrite exchanged_active; exact Hoff).
  assert (Hc1 : connected st1) by (apply exchanged_connected, Hc).
  rewrite bind_run, get_head_info_real by exact Hoff1.
  rewrite (send_receive_payload st1 Hc1 _ head) by assumption.
  set (st2 := exchanged NovaCommands.GET_HEAD_INFO st1).
  assert (Hoff2 : simulation_active st2 = false) by (unfold st2; rewrite exchanged_active; exact Hoff1).
  assert (Hc2 : connected st2) by (apply exchanged_connected, Hc1).
  rewrite bind_run, get_instrument_info_real by exact Hoff2.
  rewrite (send_receive_payload st2 Hc2 _ instr) by assumption.
  set (st3 := exchanged NovaCommands.GET_INSTRUMENT_INFO st2).
  assert (Hoff3 : simulation_active st3 = false) by (unfold st3; rewrite exchanged_active; exact Hoff2).
  assert (Hc3 : connected st3) by (apply exchanged_connected, Hc2).
  rewrite bind_run, get_unit_real by exact Hoff3.
  rewrite (send_receive_payload st3 Hc3 _ code) by assumption.
  rewrite bind_run. unfold lift, getitem.
  destruct (NovaUnits.UNIT_SETUP !! code); reflexivity.
Qed.

Lemma exchanged_four_wire (st : St) :
  wire (world (exchanged NovaCommands.GET_UNIT
                 (exchanged NovaCommands.GET_INSTRUMENT_INFO
                    (exchanged NovaCommands.GET_HEAD_INFO
                       (exchanged NovaCommands.GET_VERSION st))))) =
  (wire (world st) ++ [frame "VE"; frame "HI"; frame "II"; frame "SI"])%list.
Proof. rewrite !exchanged_wire, <- !app_assoc. reflexivity. Qed.

(** C8.  With the guard true [get_infos] returns the dictionary with
    Simulation in all four entries, the unit among them, and leaves
    everything as it was.  Whenever [get_infos] returns, the dictionary has
    the four entries and its unit is an entry of the unit table: nothing
    less is ever returned.  With the guard false and the port open, the
    frames that go out are those of version, head info, instrument info and
    unit, in this order, and the result is the dictionary of the four
    answers with the unit taken from the table, or [KeyError] when the
    table has no entry for the unit the instrument named. *)
Theorem get_infos_contract :
  (∀ st : St,
     simulation_active st = true →
     get_infos st =
       (Return (device_info "Simulation" "Simulation" "Simulation" "Simulation"), st)
     ∧ NovaUnits.UNIT_SETUP !! "Simulation" = Some "Simulation")
  ∧ (∀ (st : St) (d : gmap string string),
       fst (get_infos st) = Return d →
       ∃ version head instr code unit,
         NovaUnits.UNIT_SETUP !! code = Some unit
         ∧ d = device_info version head instr unit
         ∧ d !! "ROM Version" = Some version ∧ d !! "Head Info" = Some head
         ∧ d !! "Instrument Info" = Some instr ∧ d !! "Unit" = Some unit)
  ∧ (∀ (st : St) (version head instr code : string),
       simulation_active st = false → connected st →
       contains CRLF version = false → contains CRLF head = false →
       contains CRLF instr = false → contains CRLF code = false →
       instrument (world st) (frame NovaCommands.GET_VERSION) =
         RESULT_CHAR +:+ version +:+ CRLF →
       instrument (world st) (frame NovaCommands.GET_HEAD_INFO) =
         RESULT_CHAR +:+ head +:+ CRLF →
       instrument (world st) (frame NovaCommands.GET_INSTRUMENT_INFO) =
         RESULT_CHAR +:+ instr +:+ CRLF →
       instrument (world st) (frame NovaCommands.GET_UNIT) =
         RESULT_CHAR +:+ code +:+ CRLF →
       fst (get_infos st) =
         match NovaUnits.UNIT_SETUP !! code with
         | Some unit => Return (device_info version head instr unit)
         | None => Raise (KeyError code)
         end
       ∧ wire (world (snd (get_infos st))) =
         (wire (world st) ++ [frame "VE"; frame "HI"; frame "II"; frame "SI"])%list).
Proof.
  split; [|split].
  - intros st H. split; [apply get_infos_sim, H | reflexivity].
  - intros st d H. destruct (get_infos_whole st d H) as (v & h & i & u & n & Hn & ->).
    exists v, h, i, u, n. split; [exact Hn|]. split; [reflexivity|].
    unfold device_info.
    split; [|split; [|split]];
      rewrite ?lookup_insert_ne by discriminate; apply lookup_insert_eq.
  - intros st version head instr code Hoff Hc Hv Hh Hi Hu Rv Rh Ri Ru.
    rewrite (get_infos_real st version head instr code) by assumption.
    cbn [fst snd]. split; [reflexivity | apply exchanged_four_wire].
Qed.

Lemma get_infos_contract_witness :
  let sim := session (PyStr "COM1") (PyInt 9600) (scripted "" []) [Simulate (PyBool true); Open] in
  let real := bench_real (RESULT_CHAR +:+ "W" +:+ CRLF) in
  (get_infos sim =
     (Return (device_info "Simulation" "Simulation" "Simulation" "Simulation"), sim)
   ∧ NovaUnits.UNIT_SETUP !! "Simulation" = Some "Simulation")
  ∧ (∃ version head instr code unit,
       NovaUnits.UNIT_SETUP !! code = Some unit
       ∧ device_info "Simulation" "Simulation" "Simulation" "Simulation" =
         device_info version head instr unit
       ∧ device_info "Simulation" "Simulation" "Simulation" "Simulation" !! "ROM Version"
         = Some version
       ∧ device_info "Simulation" "Simulation" "Simulation" "Simulation" !! "Head Info"
         = Some head
       ∧ device_info "Simulation" "Simulation" "Simulation" "Simulation" !! "Instrument Info"
         = Some instr
       ∧ device_info "Simulation" "Simulation" "Simulation" "Simulation" !! "Unit"
         = Some unit)
  ∧ (fst (get_infos real) = Return (device_info "W" "W" "W" "Watts")
     ∧ wire (world (snd (get_infos real))) =
       [frame "VE"; frame "HI"; frame "II"; frame "SI"]).
Proof.
  cbv zeta. destruct get_infos_contract as (H1 & H2 & H3). split; [|split].
  - apply H1. reflexivity.
  - apply (H2 (session (PyStr "COM1") (PyInt 9600) (scripted "" [])
                 [Simulate (PyBool true); Open])).
    reflexivity.
  - apply (H3 (bench_real (RESULT_CHAR +:+ "W" +:+ CRLF)) "W" "W" "W" "W");
      first [reflexivity | split; reflexivity].
Defined.

(** A unit the table does not have: the whole call raises. *)
Example get_infos_unmapped_unit :
  fst (get_infos (bench_real (RESULT_CHAR +:+ "Q" +:+ CRLF))) = Raise (KeyError "Q").
Proof. reflexivity. Qed.

(** * More of the driver *)

(** ** What a run of interface calls does to the object and the world *)

(** One call, on an object whose method is not hidden: [simulate_device]
    stores its argument, [get_power] draws two words, the others change
    nothing. *)
Lemma perform_effect (c : api_call) (st : St) :
  unshadowed st →
  perform c st =
  match c with
  | Simulate v => set_self (insert "simulation" v) st
  | GetPower => set_world (with_drawn (S (S (drawn (world st))))) st
  | _ => st
  end.
Proof.
  intros H. pose proof (unshadowed_active st H) as Ha. destruct c; cbn [perform].
  - rewrite open_sim by exact Ha. reflexivity.
  - rewrite close_sim by exact Ha. reflexivity.
  - reflexivity.
  - rewrite get_version_sim by exact Ha. reflexivity.
  - rewrite get_head_info_sim by exact Ha. reflexivity.
  - rewrite get_instrument_info_sim by exact Ha. reflexivity.
  - rewrite get_unit_sim by exact Ha. reflexivity.
  - rewrite get_infos_sim by exact Ha. reflexivity.
  - rewrite get_power_sim by exact Ha.
    destruct (random_random_unit st) as (q & -> & _). reflexivity.
Qed.

Lemma foldl_perform_unshadowed (calls : list api_call) (st : St) :
  unshadowed st → unshadowed (foldl (λ st c, perform c st) st calls).
Proof.
  revert st. induction calls as [|c calls IH]; intros st H; [exact H|].
  cbn [foldl]. apply IH, perform_unshadowed, H.
Qed.

Lemma foldl_perform_world (calls : list api_call) (st : St) :
  unshadowed st →
  let st' := foldl (λ st c, perform c st) st calls in
  openable (world st') = openable (world st)
  ∧ instrument (world st') = instrument (world st)
  ∧ line (world st') = line (world st)
  ∧ wire (world st') = wire (world st)
  ∧ twister (world st') = twister (world st)
  ∧ clock (world st') = clock (world st)
  ∧ drawn (world st') = drawn (world st) + 2 * power_calls calls.
Proof.
  revert st. induction calls as [|c calls IH]; intros st H.
  - cbn. repeat split; lia.
  - cbn [foldl]. specialize (IH (perform c st) (perform_unshadowed c st H)).
    cbv zeta in IH. destruct IH as (I1 & I2 & I3 & I4 & I5 & I6 & I7).
    rewrite I1, I2, I3, I4, I5, I6, I7. clear I1 I2 I3 I4 I5 I6 I7.
    rewrite (perform_effect c st H).
    destruct c; (repeat split; try reflexivity);
      unfold power_calls; cbn [List.filter List.length set_world set_self world drawn with_drawn]; lia.
Qed.

Lemma foldl_perform_attr (calls : list api_call) (st : St) (name : string) :
  unshadowed st → name ≠ "simulation" →
  self (foldl (λ st c, perform c st) st calls) !! name = self st !! name.
Proof.
  revert st. induction calls as [|c calls IH]; intros st H Hn; [reflexivity|].
  cbn [foldl]. rewrite IH by (apply perform_unshadowed, H || exact Hn).
  rewrite (perform_effect c st H). destruct c; try reflexivity.
  cbn [set_self self]. apply lookup_insert_ne. congruence.
Qed.

(** X1. A driver that is only used through its public methods never
    opens, writes to or reads the serial port, and never waits: whatever
    the calls, [connection] is still [None], the line, the wire and the
    clock are those of the start, and the only thing used up is two words
    of the random generator for each [get_power]. *)
Theorem session_never_touches_port
    (com_port baudrate : pyval) (w : World) (calls : list api_call) :
  let st := session com_port baudrate w calls in
  self st !! "connection" = Some PyNone
  ∧ line (world st) = line w
  ∧ wire (world st) = wire w
  ∧ clock (world st) = clock w
  ∧ drawn (world st) = drawn w + 2 * power_calls calls.
Proof.
  intros st. unfold st, session.
  pose proof (construct_unshadowed com_port baudrate w) as Hu.
  destruct (foldl_perform_world calls _ Hu) as (_ & _ & H3 & H4 & _ & H6 & H7).
  split; [|repeat split; assumption].
  rewrite foldl_perform_attr by (exact Hu || discriminate). reflexivity.
Qed.

(** X2. The configuration is fixed at construction: no sequence of
    interface calls changes an attribute other than [simulation].  The
    port and the baud rate are the constructor's arguments, clear-to-send
    stays on, and the misspelt [siumulation] stays [False] whatever is
    passed to [simulate_device]. *)
Theorem session_configuration_fixed
    (com_port baudrate : pyval) (w : World) (calls : list api_call) (name : string) :
  name ≠ "simulation" →
  let st := session com_port baudrate w calls in
  self st !! name = self (construct com_port baudrate w) !! name
  ∧ self st !! "com_port" = Some com_port
  ∧ self st !! "baudrate" = Some baudrate
  ∧ self st !! "cts_line" = Some (PyBool true)
  ∧ self st !! "dtr_rts_lines" = Some (PyBool false)
  ∧ self st !! "siumulation" = Some (PyBool false).
Proof.
  intros Hn st. unfold st, session.
  pose proof (construct_unshadowed com_port baudrate w) as Hu.
  split; [apply foldl_perform_attr; assumption|].
  rewrite !foldl_perform_attr by (exact Hu || discriminate).
  repeat split; reflexivity.
Qed.

Lemma session_configuration_fixed_witness :
  let st := session (PyStr "COM3") (PyInt 19200) (scripted "" [])
              [Simulate (PyBool false); Open; GetPower; Simulate (PyInt 7); Close] in
  self st !! "parity" =
    self (construct (PyStr "COM3") (PyInt 19200) (scripted "" [])) !! "parity"
  ∧ self st !! "com_port" = Some (PyStr "COM3")
  ∧ self st !! "baudrate" = Some (PyInt 19200)
  ∧ self st !! "cts_line" = Some (PyBool true)
  ∧ self st !! "dtr_rts_lines" = Some (PyBool false)
  ∧ self st !! "siumulation" = Some (PyBool false).
Proof.
  apply (session_configuration_fixed (PyStr "COM3") (PyInt 19200) (scripted "" [])
           [Simulate (PyBool false); Open; GetPower; Simulate (PyInt 7); Close] "parity").
  discriminate.
Defined.

Lemma foldl_last_simulate (calls : list api_call) (acc : option pyval) (st : St) :
  unshadowed st → self st !! "simulation" = acc →
  self (foldl (λ st c, perform c st) st calls) !! "simulation" =
  foldl (λ acc c, match c with Simulate v => Some v | _ => acc end) acc calls.
Proof.
  revert acc st. induction calls as [|c calls IH]; intros acc st H Hs; [exact Hs|].
  cbn [foldl]. apply IH; [apply perform_unshadowed, H|].
  rewrite (perform_effect c st H). destruct c; try exact Hs.
  cbn [set_self self]. apply lookup_insert_eq.
Qed.

(** X3. The attribute [simulation] holds what the last [simulate_device]
    call was given, whatever was called since; on a driver on which
    [simulate_device] was never called the attribute does not exist, and
    reading it raises [AttributeError] (the constructor sets [siumulation]
    instead). *)
Theorem simulation_attribute_last_write
    (com_port baudrate : pyval) (w : World) (calls : list api_call) :
  let st := session com_port baudrate w calls in
  self st !! "simulation" = last_simulate calls
  ∧ getattr "simulation" st =
    (match last_simulate calls with
     | Some v => Return v
     | None => Raise (AttributeError "simulation")
     end, st).
Proof.
  intros st.
  assert (H : self st !! "simulation" = last_simulate calls).
  { unfold st, session, last_simulate.
    apply foldl_last_simulate; [apply construct_unshadowed | reflexivity]. }
  split; [exact H|]. unfold getattr. rewrite H.
  destruct (last_simulate calls); reflexivity.
Qed.

Example simulation_attribute_examples :
  last_simulate [Open; GetPower; Close] = None
  ∧ last_simulate [Simulate (PyBool true); GetInfos; Simulate (PyBool false); GetPower]
    = Some (PyBool false).
Proof. split; reflexivity. Qed.

(** ** Opening and closing the port *)




Lemma configured_attr (st : St) (name : string) :
  configured st →
  name ∈ ["baudrate"; "data_bits"; "parity"; "stop_bit"; "dtr_rts_lines"; "cts_line"] →
  ∃ v, getattr name st = (Return v, st).
Proof.
  intros Hc Hn. unfold configured in Hc. rewrite Forall_forall in Hc.
  destruct (Hc name Hn) as [v Hv]. exists v. apply getattr_instance, Hv.
Qed.

(** The state [__setup_connection] leaves when the port opens. *)
Lemma setup_connection_run (st : St) (p : string) :
  configured st →
  self st !! "com_port" = Some (PyStr p) →
  openable (world st) p = true →
  __setup_connection st =
  (Return tt, mkSt (<["connection" := PySerial]> (self st)) (with_line (Some "") (world st))).
Proof.
  intros Hc Hp Ho. unfold __setup_connection, try_except.
  rewrite bind_run, (getattr_instance _ _ _ Hp).
  destruct (configured_attr st "baudrate" Hc) as [v1 H1]; [set_solver|].
  destruct (configured_attr st "data_bits" Hc) as [v2 H2]; [set_solver|].
  destruct (configured_attr st "parity" Hc) as [v3 H3]; [set_solver|].
  destruct (configured_attr st "stop_bit" Hc) as [v4 H4]; [set_solver|].
  destruct (configured_attr st "dtr_rts_lines" Hc) as [v5 H5]; [set_solver|].
  destruct (configured_attr st "cts_line" Hc) as [v6 H6]; [set_solver|].
  rewrite bind_run, H1, bind_run, H2, bind_run, H3, bind_run, H4, bind_run, H5, bind_run, H6.
  rewrite bind_run. unfold Serial.new. rewrite Ho.
  destruct st as [slf [op ins ln wr tw dr ck]].
  repeat first
    [ rewrite bind_run
    | rewrite (getattr_instance "connection" PySerial) by apply lookup_insert_eq
    | progress unfold Serial.flush, Serial.reset_input_buffer,
        Serial.reset_output_buffer, Serial.call
    | progress cbn [setattr set_self set_world self world line with_line openable
                    instrument wire twister drawn clock mret M_ret] ].
  reflexivity.
Qed.

(** X5. When the port opens, [__setup_connection] returns with
    [connection] holding the serial object and the line open and empty:
    whatever was waiting on a line held before is gone, nothing has been
    written, and no other attribute has changed.  With the guard false,
    [open] is this call. *)
Theorem setup_connection_success (st : St) (p name : string) :
  configured st →
  self st !! "com_port" = Some (PyStr p) →
  openable (world st) p = true →
  simulation_active st = false →
  name ≠ "connection" →
  let st' := snd (__setup_connection st) in
  fst (__setup_connection st) = Return tt
  ∧ open st = __setup_connection st
  ∧ connected st'
  ∧ self st' !! name = self st !! name
  ∧ simulation_active st' = false
  ∧ wire (world st') = wire (world st)
  ∧ instrument (world st') = instrument (world st)
  ∧ clock (world st') = clock (world st).
Proof.
  intros Hc Hp Ho Hoff Hn st'. unfold st'.
  rewrite (setup_connection_run st p Hc Hp Ho). cbn [fst snd].
  split; [reflexivity|].
  split; [unfold open; guard_is Hoff; apply (setup_connection_run st p); assumption|].
  split; [split; [apply lookup_insert_eq | reflexivity]|].
  split; [cbn [self]; apply lookup_insert_ne; congruence|].
  split; [|repeat split].
  revert Hoff. unfold simulation_active, getattr. cbn [self].
  rewrite lookup_insert_ne by discriminate.
  destruct (self st !! "simulate_device"); [exact (λ H, H)|].
  destruct (class_dict !! "simulate_device"); exact (λ H, H).
Qed.

Lemma setup_connection_success_witness :
  let st := snd (setattr "simulate_device" (PyBool false)
                   (construct (PyStr "COM1") (PyInt 9600) (scripted "" []))) in
  let st' := snd (__setup_connection st) in
  fst (__setup_connection st) = Return tt
  ∧ open st = __setup_connection st
  ∧ connected st'
  ∧ self st' !! "baudrate" = self st !! "baudrate"
  ∧ simulation_active st' = false
  ∧ wire (world st') = wire (world st)
  ∧ instrument (world st') = instrument (world st)
  ∧ clock (world st') = clock (world st).
Proof.
  apply (setup_connection_success
           (snd (setattr "simulate_device" (PyBool false)
                   (construct (PyStr "COM1") (PyInt 9600) (scripted "" []))))
           "COM1" "baudrate").
  - unfold configured. repeat constructor; eexists; reflexivity.
  - reflexivity.
  - reflexivity.
  - reflexivity.
  - discriminate.
Defined.

(** ** The exchange in every state of the port *)

Lemma send_receive_frame (cmd : string) (st : St) :
  __send_receive_data cmd st =
  (conn ← getattr "connection";
   Serial.write conn (frame cmd);;
   sleep 500;;
   result ← (λ st, drain (turns st) "" st);
   data ← lift (_extract_received_data result);
   mret (replace CRLF "" data)) st.
Proof.
  unfold __send_receive_data.
  rewrite bind_run, build_command_string_frame. cbn [lift].
  rewrite bind_run. change (format "{0}" [frame cmd]) with (Return (frame cmd +:+ "")).
  rewrite append_nil_r. reflexivity.
Qed.

(** With the port open, whatever waits on the line. *)
Lemma send_receive_open (cmd buf : string) (st : St) :
  self st !! "connection" = Some PySerial →
  line (world st) = Some buf →
  __send_receive_data cmd st =
  (classified (buf +:+ instrument (world st) (frame cmd)), exchanged cmd st).
Proof.
  intros Hc Hl. rewrite send_receive_frame.
  rewrite bind_run, (getattr_instance _ _ _ Hc).
  rewrite bind_run, (write_open _ _ _ Hl).
  rewrite bind_run. cbn [sleep].
  rewrite bind_run.
  destruct st as [slf [op ins ln wr tw dr ck]]. cbn in Hc, Hl. subst ln.
  cbn [set_world world self with_line with_wire with_clock line wire clock
       openable instrument twister drawn turns].
  rewrite (drain_all _ (buf +:+ ins (frame cmd))); [| exact Hc | reflexivity | lia].
  rewrite append_nil_l, bind_run. cbn [lift]. unfold classified.
  destruct (_extract_received_data (buf +:+ ins (frame cmd))); reflexivity.
Qed.

Lemma send_receive_closed (cmd : string) (st : St) :
  self st !! "connection" = Some PySerial →
  line (world st) = None →
  __send_receive_data cmd st = (Raise (SerialException "port not open"), st).
Proof.
  intros Hc Hl. rewrite send_receive_frame.
  rewrite bind_run, (getattr_instance _ _ _ Hc).
  rewrite bind_run. unfold Serial.write, Serial.call. rewrite Hl. reflexivity.
Qed.

Lemma send_receive_no_object (cmd : string) (st : St) (v : pyval) :
  self st !! "connection" = Some v → v ≠ PySerial →
  __send_receive_data cmd st = (Raise (AttributeError "write"), st).
Proof.
  intros Hc Hv. rewrite send_receive_frame.
  rewrite bind_run, (getattr_instance _ _ _ Hc).
  rewrite bind_run. unfold Serial.write, Serial.call.
  destruct v; try reflexivity. congruence.
Qed.

Lemma send_receive_no_attribute (cmd : string) (st : St) :
  self st !! "connection" = None →
  __send_receive_data cmd st = (Raise (AttributeError "connection"), st).
Proof.
  intros Hc. rewrite send_receive_frame.
  rewrite bind_run. unfold getattr. rewrite Hc. reflexivity.
Qed.

Lemma classified_cases (data : string) :
  (∃ text, classified data = Return text)
  ∨ classified data = Raise (KeyError data)
  ∨ classified data =
    Raise (Exception_ "returned string has not the defined characters in it!").
Proof.
  unfold classified, _extract_received_data, getitem.
  destruct (contains RESULT_CHAR data); [left; eexists; reflexivity|].
  destruct (contains ERROR_CHAR data); [|right; right; reflexivity].
  destruct (Error.ERROR_MESSAGES !! data); [left; eexists; reflexivity|].
  right; left; reflexivity.
Qed.

(** X6. With the port open, the exchange reads whatever waits on the
    line, bytes left there from before the command included, as one piece
    with the answer and classifies the whole; it writes exactly the one
    frame, waits half a second and leaves the line empty. *)
Theorem exchange_reads_all_waiting (cmd stale : string) (st : St) :
  self st !! "connection" = Some PySerial →
  line (world st) = Some stale →
  let answer := instrument (world st) (frame cmd) in
  let st' := snd (__send_receive_data cmd st) in
  fst (__send_receive_data cmd st) = classified (stale +:+ answer)
  ∧ line (world st') = Some ""
  ∧ wire (world st') = (wire (world st) ++ [frame cmd])%list
  ∧ clock (world st') = (clock (world st) + 500)%N
  ∧ self st' = self st.
Proof.
  intros Hc Hl answer st'. unfold st', answer.
  rewrite (send_receive_open cmd stale st Hc Hl).
  repeat split; reflexivity.
Qed.

Lemma exchange_reads_all_waiting_witness :
  let st := set_world (with_line (Some ("*old" +:+ CRLF))) (bench ("*new" +:+ CRLF)) in
  let st' := snd (__send_receive_data NovaCommands.GET_VERSION st) in
  fst (__send_receive_data NovaCommands.GET_VERSION st) =
    classified (("*old" +:+ CRLF) +:+ instrument (world st) (frame NovaCommands.GET_VERSION))
  ∧ line (world st') = Some ""
  ∧ wire (world st') = (wire (world st) ++ [frame NovaCommands.GET_VERSION])%list
  ∧ clock (world st') = (clock (world st) + 500)%N
  ∧ self st' = self st.
Proof.
  apply (exchange_reads_all_waiting NovaCommands.GET_VERSION ("*old" +:+ CRLF)
           (set_world (with_line (Some ("*old" +:+ CRLF))) (bench ("*new" +:+ CRLF))));
    reflexivity.
Defined.

Example stale_bytes_join_the_answer :
  classified (("*old" +:+ CRLF) +:+ ("*new" +:+ CRLF)) = Return "old*new".
Proof. reflexivity. Qed.

Lemma send_receive_cases (cmd : string) (st : St) :
  (∃ data, __send_receive_data cmd st = (classified data, exchanged cmd st))
  ∨ __send_receive_data cmd st = (Raise (AttributeError "connection"), st)
  ∨ __send_receive_data cmd st = (Raise (AttributeError "write"), st)
  ∨ __send_receive_data cmd st = (Raise (SerialException "port not open"), st).
Proof.
  destruct (self st !! "connection") as [v|] eqn:Hc.
  - assert (Hv : v = PySerial ∨ v ≠ PySerial)
      by (destruct v; (left; reflexivity) || (right; discriminate)).
    destruct Hv as [->|Hv].
    + destruct (line (world st)) as [buf|] eqn:Hl.
      * left. eexists. apply (send_receive_open cmd buf st Hc Hl).
      * right; right; right. apply send_receive_closed; assumption.
    + right; right; left. apply (send_receive_no_object cmd st v); assumption.
  - right; left. apply send_receive_no_attribute, Hc.
Qed.

(** X7. The exchange always comes back, in every state of the object and
    of the port: with a text, or with one of five exceptions.  It never
    blocks in a read and its loop never runs on.  When there is no serial
    object or the port is not open, nothing is written and nothing
    changes. *)
Theorem exchange_outcomes (cmd : string) (st : St) :
  let o := fst (__send_receive_data cmd st) in
  let st' := snd (__send_receive_data cmd st) in
  o ≠ Raise Hang
  ∧ ((∃ text, o = Return text) ∧ st' = exchanged cmd st
     ∨ (∃ data, o = Raise (KeyError data)) ∧ st' = exchanged cmd st
     ∨ o = Raise (Exception_ "returned string has not the defined characters in it!")
       ∧ st' = exchanged cmd st
     ∨ o = Raise (AttributeError "connection") ∧ st' = st
     ∨ o = Raise (AttributeError "write") ∧ st' = st
     ∨ o = Raise (SerialException "port not open") ∧ st' = st).
Proof.
  cbv zeta.
  pose proof (send_receive_cases cmd st) as H.
  destruct H as [(data & ->) | [-> | [-> | ->]]]; cbn [fst snd].
  - destruct (classified_cases data) as [(text & ->) | [-> | ->]].
    + split; [discriminate|]. left. split; [eexists; reflexivity | reflexivity].
    + split; [discriminate|]. right; left. split; [eexists; reflexivity | reflexivity].
    + split; [discriminate|]. right; right; left. split; reflexivity.
  - split; [discriminate|]. right; right; right; left. split; reflexivity.
  - split; [discriminate|]. do 4 right; left. split; reflexivity.
  - split; [discriminate|]. do 5 right. split; reflexivity.
Qed.

(** ** The guard false: before [open], and after [close] *)

(** X8. With the guard false and [connection] still [None] (the port
    was never opened), every query raises [AttributeError] on the missing
    [write], [close] raises it on the missing [close], and none of them
    writes, waits or changes anything. *)
Theorem instrument_mode_before_open (st : St) :
  simulation_active st = false →
  self st !! "connection" = Some PyNone →
  _get_version st = (Raise (AttributeError "write"), st)
  ∧ _get_head_info st = (Raise (AttributeError "write"), st)
  ∧ _get_instrument_info st = (Raise (AttributeError "write"), st)
  ∧ _get_unit st = (Raise (AttributeError "write"), st)
  ∧ get_power st = (Raise (AttributeError "write"), st)
  ∧ get_infos st = (Raise (AttributeError "write"), st)
  ∧ close st = (Raise (AttributeError "close"), st).
Proof.
  intros Hoff Hc.
  assert (Hs : ∀ cmd, __send_receive_data cmd st = (Raise (AttributeError "write"), st))
    by (intros cmd; apply (send_receive_no_object cmd st PyNone); [exact Hc | discriminate]).
  assert (Hv : _get_version st = (Raise (AttributeError "write"), st))
    by (rewrite get_version_real by exact Hoff; apply Hs).
  split; [exact Hv|].
  split; [rewrite get_head_info_real by exact Hoff; apply Hs|].
  split; [rewrite get_instrument_info_real by exact Hoff; apply Hs|].
  split; [rewrite get_unit_real by exact Hoff; apply Hs|].
  split; [rewrite get_power_real by exact Hoff; rewrite bind_run, Hs; reflexivity|].
  split; [unfold get_infos; rewrite bind_run, Hv; reflexivity|].
  unfold close. guard_is Hoff. rewrite bind_run, (getattr_instance _ _ _ Hc). reflexivity.
Qed.

Lemma instrument_mode_before_open_witness :
  let st := snd (setattr "simulate_device" (PyBool false)
                   (construct (PyStr "COM1") (PyInt 9600) (scripted ("*1.0" +:+ CRLF) []))) in
  _get_version st = (Raise (AttributeError "write"), st)
  ∧ _get_head_info st = (Raise (AttributeError "write"), st)
  ∧ _get_instrument_info st = (Raise (AttributeError "write"), st)
  ∧ _get_unit st = (Raise (AttributeError "write"), st)
  ∧ get_power st = (Raise (AttributeError "write"), st)
  ∧ get_infos st = (Raise (AttributeError "write"), st)
  ∧ close st = (Raise (AttributeError "close"), st).
Proof.
  apply (instrument_mode_before_open
           (snd (setattr "simulate_device" (PyBool false)
                   (construct (PyStr "COM1") (PyInt 9600) (scripted ("*1.0" +:+ CRLF) [])))));
    reflexivity.
Defined.

(** X9. With the guard false and the serial object in place, [close]
    returns and releases the line, keeping the object in [connection] and
    what was written on the wire; closing again returns again; and every
    exchange after it raises the serial library's "port not open" without
    writing anything. *)
Theorem close_releases_line (cmd : string) (st : St) :
  simulation_active st = false →
  self st !! "connection" = Some PySerial →
  let st' := snd (close st) in
  fst (close st) = Return tt
  ∧ line (world st') = None
  ∧ wire (world st') = wire (world st)
  ∧ self st' = self st
  ∧ close st' = (Return tt, st')
  ∧ __send_receive_data cmd st' = (Raise (SerialException "port not open"), st').
Proof.
  intros Hoff Hc.
  assert (H : close st = (Return tt, set_world (with_line None) st)).
  { unfold close. guard_is Hoff. rewrite bind_run, (getattr_instance _ _ _ Hc). reflexivity. }
  cbv zeta. rewrite H. cbn [fst snd].
  assert (Hoff' : simulation_active (set_world (with_line None) st) = false).
  { revert Hoff. unfold simulation_active, getattr. cbn [set_world self].
    destruct (self st !! "simulate_device"); [exact (λ H, H)|].
    destruct (class_dict !! "simulate_device"); exact (λ H, H). }
  split; [reflexivity|]. split; [reflexivity|]. split; [reflexivity|]. split; [reflexivity|].
  split.
  - unfold close. guard_is Hoff'.
    rewrite bind_run, (getattr_instance "connection" PySerial) by exact Hc. reflexivity.
  - apply send_receive_closed; [exact Hc | reflexivity].
Qed.

Lemma close_releases_line_witness :
  let st := bench_real ("*1.0" +:+ CRLF) in
  let st' := snd (close st) in
  fst (close st) = Return tt
  ∧ line (world st') = None
  ∧ wire (world st') = wire (world st)
  ∧ self st' = self st
  ∧ close st' = (Return tt, st')
  ∧ __send_receive_data NovaCommands.GET_POWER st' =
    (Raise (SerialException "port not open"), st').
Proof.
  apply (close_releases_line NovaCommands.GET_POWER (bench_real ("*1.0" +:+ CRLF)));
    reflexivity.
Defined.

(** ** The error table *)

Lemma extract_error_marked (data : string) :
  occurs "?" data → ¬ occurs "*" data →
  _extract_received_data data = getitem Error.ERROR_MESSAGES data.
Proof.
  intros He Hr. apply contains_char in He. apply contains_char_false in Hr.
  unfold _extract_received_data, RESULT_CHAR, ERROR_CHAR. rewrite Hr, He. reflexivity.
Qed.

Lemma error_table_entries (token description : string) :
  Error.ERROR_MESSAGES !! token = Some description →
  (token, description) ∈
    [("?PARAM ERROR", "bad operand.");
     ("?TIMEOUT: NO PULSE", "when the requested time period elapsed w/o pulse coming in");
     ("?HEAD NOT MEASURING POWER", "head not measure power");
     ("?NOT IN MAIN POWER SCREEN", "device is not in main screen");
     ("?HEAD NOT CONNECTED", "head is not connected to device");
     ("?UNKNOWN COMMAND", "unknown command")].
Proof. intros H. apply elem_of_list_to_map_2 in H. exact H. Qed.

Ltac each_entry H :=
  apply error_table_entries in H;
  repeat (apply elem_of_cons in H as [H|H]; [injection H as -> ->|]);
  [.. | apply elem_of_nil in H; destruct H].

(** X10. Every token of the error table, handed over without a line
    end, is classified as its description: the classifier returns it, the
    removal of line ends leaves it whole, and so the exchange returns the
    description as its value. *)
Theorem error_tokens_give_descriptions (token description cmd : string) (st : St) :
  Error.ERROR_MESSAGES !! token = Some description →
  connected st →
  instrument (world st) (frame cmd) = token →
  _extract_received_data token = Return description
  ∧ __send_receive_data cmd st = (Return description, exchanged cmd st).
Proof.
  intros H Hc Hi.
  assert (Hx : _extract_received_data token = Return description
               ∧ replace CRLF "" description = description)
    by (each_entry H; split; reflexivity).
  destruct Hx as [Hx Hr]. split; [exact Hx|].
  rewrite send_receive_connected by exact Hc. rewrite Hi, Hx, Hr. reflexivity.
Qed.

Lemma error_tokens_give_descriptions_witness :
  let st := bench "?TIMEOUT: NO PULSE" in
  _extract_received_data "?TIMEOUT: NO PULSE" =
    Return "when the requested time period elapsed w/o pulse coming in"
  ∧ __send_receive_data NovaCommands.GET_POWER st =
    (Return "when the requested time period elapsed w/o pulse coming in",
     exchanged NovaCommands.GET_POWER st).
Proof.
  apply (error_tokens_give_descriptions "?TIMEOUT: NO PULSE"
           "when the requested time period elapsed w/o pulse coming in"
           NovaCommands.GET_POWER (bench "?TIMEOUT: NO PULSE")).
  - reflexivity.
  - split; reflexivity.
  - reflexivity.
Defined.

Lemma occurs_app (c : ascii) (s t : string) :
  occurs c (s +:+ t) ↔ occurs c s ∨ occurs c t.
Proof.
  unfold occurs. induction s as [|a s IH].
  - rewrite append_nil_l. cbn. tauto.
  - rewrite append_cons. cbn [list_ascii_of_string In]. rewrite IH. tauto.
Qed.

Lemma error_table_no_cr (data : string) :
  occurs CR data → Error.ERROR_MESSAGES !! data = None.
Proof.
  intros Hcr. destruct (Error.ERROR_MESSAGES !! data) as [d|] eqn:H; [|reflexivity].
  exfalso. apply contains_char in Hcr.
  each_entry H; discriminate Hcr.
Qed.

(** X11. An error line as the instrument sends it, with CR LF at its
    end, is never found in the error table, because the line end is taken
    out only after the lookup: for every text with the error marker and
    without the result marker the classifier raises [KeyError] with the
    whole line, and with the guard false and the port open so does every
    query.  This holds for the six tokens of the table as for any other. *)
Theorem error_line_raises_key_error (token : string) (st : St) :
  occurs "?" token → ¬ occurs "*" token →
  simulation_active st = false → connected st →
  (∀ cmd, instrument (world st) (frame cmd) = token +:+ CRLF) →
  _extract_received_data (token +:+ CRLF) = Raise (KeyError (token +:+ CRLF))
  ∧ fst (_get_version st) = Raise (KeyError (token +:+ CRLF))
  ∧ fst (_get_head_info st) = Raise (KeyError (token +:+ CRLF))
  ∧ fst (_get_instrument_info st) = Raise (KeyError (token +:+ CRLF))
  ∧ fst (_get_unit st) = Raise (KeyError (token +:+ CRLF))
  ∧ fst (get_power st) = Raise (KeyError (token +:+ CRLF))
  ∧ fst (get_infos st) = Raise (KeyError (token +:+ CRLF)).
Proof.
  intros He Hr Hoff Hc Hi.
  assert (Hx : _extract_received_data (token +:+ CRLF) = Raise (KeyError (token +:+ CRLF))).
  { rewrite extract_error_marked.
    - unfold getitem. rewrite error_table_no_cr; [reflexivity|].
      apply occurs_app. right. apply contains_char. reflexivity.
    - apply occurs_app. left. exact He.
    - rewrite occurs_app. intros [H|H]; [exact (Hr H)|].
      apply contains_char_false in H; [exact H | reflexivity]. }
  assert (Hs : ∀ cmd, __send_receive_data cmd st =
                      (Raise (KeyError (token +:+ CRLF)), exchanged cmd st)).
  { intros cmd. rewrite send_receive_connected by exact Hc. rewrite Hi, Hx. reflexivity. }
  assert (Hv : _get_version st =
               (Raise (KeyError (token +:+ CRLF)), exchanged NovaCommands.GET_VERSION st))
    by (rewrite get_version_real by exact Hoff; apply Hs).
  split; [exact Hx|].
  split; [rewrite Hv; reflexivity|].
  split; [rewrite get_head_info_real, Hs by exact Hoff; reflexivity|].
  split; [rewrite get_instrument_info_real, Hs by exact Hoff; reflexivity|].
  split; [rewrite get_unit_real, Hs by exact Hoff; reflexivity|].
  split; [rewrite get_power_real by exact Hoff; rewrite bind_run, Hs; reflexivity|].
  unfold get_infos. rewrite bind_run, Hv. reflexivity.
Qed.

Lemma error_line_raises_key_error_witness :
  let st := bench_real ("?PARAM ERROR" +:+ CRLF) in
  _extract_received_data ("?PARAM ERROR" +:+ CRLF) = Raise (KeyError ("?PARAM ERROR" +:+ CRLF))
  ∧ fst (_get_version st) = Raise (KeyError ("?PARAM ERROR" +:+ CRLF))
  ∧ fst (_get_head_info st) = Raise (KeyError ("?PARAM ERROR" +:+ CRLF))
  ∧ fst (_get_instrument_info st) = Raise (KeyError ("?PARAM ERROR" +:+ CRLF))
  ∧ fst (_get_unit st) = Raise (KeyError ("?PARAM ERROR" +:+ CRLF))
  ∧ fst (get_power st) = Raise (KeyError ("?PARAM ERROR" +:+ CRLF))
  ∧ fst (get_infos st) = Raise (KeyError ("?PARAM ERROR" +:+ CRLF)).
Proof.
  apply (error_line_raises_key_error "?PARAM ERROR" (bench_real ("?PARAM ERROR" +:+ CRLF))).
  - apply contains_char. reflexivity.
  - apply contains_char_false. reflexivity.
  - reflexivity.
  - split; reflexivity.
  - intros cmd. reflexivity.
Defined.

(** ** Frames *)

Lemma append_inv_r (s t u : string) : s +:+ u = t +:+ u → s = t.
Proof.
  revert t. induction s as [|a s IH]; intros [|b t] H.
  - reflexivity.
  - apply (f_equal String.length) in H. rewrite append_nil_l, length_append in H.
    cbn [String.length] in H. lia.
  - apply (f_equal String.length) in H. rewrite append_nil_l, length_append in H.
    cbn [String.length] in H. lia.
  - rewrite !append_cons in H. injection H as -> H. f_equal. apply IH, H.
Qed.

(** X12. The encoder is one to one: two different mnemonics never give
    the same frame, so no two commands can be confused on the wire. *)
Theorem build_command_string_injective (cmd1 cmd2 : string) :
  cmd1 ≠ cmd2 → __build_command_string cmd1 ≠ __build_command_string cmd2.
Proof.
  intros Hne. rewrite !build_command_string_frame. unfold frame, COMMAND_CHAR.
  rewrite !append_cons, !append_nil_l. intros [= H].
  apply append_inv_r in H. exact (Hne H).
Qed.

Lemma build_command_string_injective_witness :
  __build_command_string NovaCommands.GET_POWER ≠ __build_command_string NovaCommands.GET_ENERGY.
Proof.
  apply (build_command_string_injective NovaCommands.GET_POWER NovaCommands.GET_ENERGY).
  discriminate.
Defined.

(** ** The aggregated query, whatever happens *)

Lemma real_query_cases (cmd : string) (query : M string) (st : St) :
  query st = __send_receive_data cmd st →
  (∃ v, query st = (Return v, exchanged cmd st))
  ∨ (∃ e, query st = (Raise e, exchanged cmd st))
  ∨ (∃ e, query st = (Raise e, st)).
Proof.
  intros ->. destruct (send_receive_cases cmd st) as [(data & ->) | [-> | [-> | ->]]].
  - destruct (classified data) as [v|e]; [left | right; left]; eexists; reflexivity.
  - right; right. eexists; reflexivity.
  - right; right. eexists; reflexivity.
  - right; right. eexists; reflexivity.
Qed.

(** X13. [get_infos] asks in a fixed order and stops at the first
    failure: in every state the frames it has written when it ends are the
    first [k] of version, head info, instrument info and unit, and when it
    returns it has written none of them (the guard was true) or all four;
    it never changes an attribute. *)
Theorem get_infos_writes_prefix (st : St) :
  ∃ k : nat,
    wire (world (snd (get_infos st))) =
      (wire (world st) ++ take k [frame "VE"; frame "HI"; frame "II"; frame "SI"])%list
    ∧ (is_return (fst (get_infos st)) = true →
       k = 4 ∧ simulation_active st = false ∨ k = 0 ∧ simulation_active st = true)
    ∧ self (snd (get_infos st)) = self st.
Proof.
  destruct (simulation_active st) eqn:Hact.
  - exists 0. rewrite get_infos_sim by exact Hact. cbn [snd fst take].
    rewrite app_nil_r. split; [reflexivity|]. split; [right; split; reflexivity | reflexivity].
  - unfold get_infos. rewrite bind_run.
    destruct (real_query_cases "VE" _get_version st (get_version_real st Hact))
      as [(v & ->) | [(e & ->) | (e & ->)]];
      [ | exists 1; cbn; split; [reflexivity | split; [discriminate | reflexivity]]
        | exists 0; cbn; rewrite app_nil_r; split; [reflexivity | split; [discriminate | reflexivity]] ].
    set (st1 := exchanged "VE" st).
    assert (H1 : simulation_active st1 = false) by (unfold st1; rewrite exchanged_active; exact Hact).
    rewrite bind_run.
    destruct (real_query_cases "HI" _get_head_info st1 (get_head_info_real st1 H1))
      as [(h & ->) | [(e & ->) | (e & ->)]];
      [ | exists 2; cbn; rewrite <- !app_assoc; split; [reflexivity | split; [discriminate | reflexivity]]
        | exists 1; cbn; split; [reflexivity | split; [discriminate | reflexivity]] ].
    set (st2 := exchanged "HI" st1).
    assert (H2 : simulation_active st2 = false) by (unfold st2; rewrite exchanged_active; exact H1).
    rewrite bind_run.
    destruct (real_query_cases "II" _get_instrument_info st2 (get_instrument_info_real st2 H2))
      as [(i & ->) | [(e & ->) | (e & ->)]];
      [ | exists 3; cbn; rewrite <- !app_assoc; split; [reflexivity | split; [discriminate | reflexivity]]
        | exists 2; cbn; rewrite <- !app_assoc; split; [reflexivity | split; [discriminate | reflexivity]] ].
    set (st3 := exchanged "II" st2).
    assert (H3 : simulation_active st3 = false) by (unfold st3; rewrite exchanged_active; exact H2).
    rewrite bind_run.
    destruct (real_query_cases "SI" _get_unit st3 (get_unit_real st3 H3))
      as [(u & ->) | [(e & ->) | (e & ->)]];
      [ | exists 4; cbn; rewrite <- !app_assoc; split; [reflexivity | split; [discriminate | reflexivity]]
        | exists 3; cbn; rewrite <- !app_assoc; split; [reflexivity | split; [discriminate | reflexivity]] ].
    exists 4. rewrite bind_run. unfold lift, getitem.
    destruct (NovaUnits.UNIT_SETUP !! u); cbn; rewrite <- !app_assoc;
      (split; [reflexivity | split; [intros _; left; split; reflexivity | reflexivity]]).
Qed.

(** ** serial_ports *)

(** The loop keeps the ports that open, in the order it was given them,
    after what it had already, and changes nothing. *)
Lemma probe_each_filter (ports result : list string) (st : St) :
  probe_each ports result st =
  (Ports (result ++ List.filter (openable (world st)) ports)%list, st).
Proof.
  revert result. induction ports as [|port rest IH]; intros result.
  - cbn. rewrite app_nil_r. reflexivity.
  - cbn [probe_each List.filter]. unfold probe.
    destruct (openable (world st) port).
    + rewrite IH, <- app_assoc. reflexivity.
    + apply IH.
Qed.



Lemma com_name_inj : Inj (=) (=) (λ i : nat, "COM" +:+ pretty (i + 1)%nat).
Proof.
  intros i j H. rewrite !append_cons, !append_nil_l in H. injection H as H.
  apply (inj pretty) in H. lia.
Qed.

(** X15. On Windows the candidates are the 256 names COM1 to COM256,
    each once, and [serial_ports] returns exactly those of them that open,
    in ascending order of their number. *)
Theorem serial_ports_windows (host : Host) (st : St) (name : string) :
  String.prefix "win" (platform host) = true →
  serial_ports host st = (Ports (List.filter (openable (world st)) com_ports), st)
  ∧ List.length com_ports = 256
  ∧ NoDup com_ports
  ∧ (name ∈ com_ports ↔ ∃ i : nat, (1 ≤ i ≤ 256)%nat ∧ name = "COM" +:+ pretty i)
  ∧ (In name (List.filter (openable (world st)) com_ports)
     ↔ name ∈ com_ports ∧ openable (world st) name = true).
Proof.
  intros Hw.
  assert (H : serial_ports host st =
              (Ports (List.filter (openable (world st)) com_ports), st))
    by (unfold serial_ports; rewrite Hw, probe_each_filter; reflexivity).
  split; [exact H|].
  split; [unfold com_ports; rewrite length_fmap, length_seq; reflexivity|].
  split; [unfold com_ports; apply (NoDup_fmap_2 _ (Inj0:=com_name_inj)), NoDup_seq|].
  split.
  - unfold com_ports. rewrite list_elem_of_fmap. split.
    + intros (i & -> & Hi). apply elem_of_seq in Hi. exists (i + 1). split; [lia | reflexivity].
    + intros (i & Hi & ->). exists (i - 1). split.
      * replace (i - 1 + 1) with i by lia. reflexivity.
      * apply elem_of_seq. lia.
  - rewrite (list_elem_of_In com_ports name). apply filter_In.
Qed.

Lemma serial_ports_windows_witness :
  let host := mkHost "win32" (λ _, []) in
  let st := construct (PyStr "COM1") (PyInt 9600)
              (mkWorld (λ p, String.eqb p "COM3" || String.eqb p "COM12" || String.eqb p "LPT1")
                 (λ _, "") None [] (λ _, 0%Z) 0 0) in
  serial_ports host st = (Ports ["COM3"; "COM12"], st).
Proof.
  cbv zeta.
  refine (eq_trans (proj1 (serial_ports_windows (mkHost "win32" (λ _, [])) _ "COM3" _)) _).
  - reflexivity.
  - vm_compute. reflexivity.
Defined.

(** X16. On Linux and Cygwin the candidates are what [glob] finds for
    [/dev/tty[A-Za-z]*], on macOS what it finds for [/dev/tty.*];
    [serial_ports] returns those of them that open, in the order [glob]
    gave them, and leaves out the others without raising. *)
Theorem serial_ports_posix (host : Host) (st : St) (pattern : string) :
  String.prefix "win" (platform host) = false →
  (String.prefix "linux" (platform host) || String.prefix "cygwin" (platform host) = true
   ∧ pattern = "/dev/tty[A-Za-z]*")
  ∨ (String.prefix "linux" (platform host) || String.prefix "cygwin" (platform host) = false
     ∧ String.prefix "darwin" (platform host) = true
     ∧ pattern = "/dev/tty.*") →
  serial_ports host st =
    (Ports (List.filter (openable (world st)) (glob host pattern)), st).
Proof.
  intros Hw [[Hl ->] | (Hl & Hd & ->)]; unfold serial_ports; rewrite Hw, Hl.
  - rewrite probe_each_filter. reflexivity.
  - rewrite Hd, probe_each_filter. reflexivity.
Qed.

Lemma serial_ports_posix_witness :
  let host := mkHost "linux2"
                (λ pat, if String.eqb pat "/dev/tty[A-Za-z]*"
                        then ["/dev/ttyS0"; "/dev/ttyUSB0"; "/dev/ttyprintk"] else []) in
  let st := construct (PyStr "/dev/ttyUSB0") (PyInt 9600)
              (mkWorld (λ p, negb (String.eqb p "/dev/ttyS0")) (λ _, "") None [] (λ _, 0%Z) 0 0) in
  serial_ports host st = (Ports ["/dev/ttyUSB0"; "/dev/ttyprintk"], st).
Proof.
  cbv zeta.
  refine (eq_trans (serial_ports_posix _ _ "/dev/tty[A-Za-z]*" _ _) _).
  - reflexivity.
  - left. split; reflexivity.
  - reflexivity.
Defined.

(** ** A whole visit to the instrument *)

(** X17. With the guard false: [open], a query, [close].  [open] takes
    the port and throws away what waited on a line held before; the query
    that follows writes its frame and returns the payload of a well-formed
    answer; [close] then releases the line, and of the whole visit the
    wire shows the one frame. *)
Theorem open_query_close (st : St) (p payload : string) :
  configured st →
  self st !! "com_port" = Some (PyStr p) →
  openable (world st) p = true →
  simulation_active st = false →
  contains CRLF payload = false →
  instrument (world st) (frame NovaCommands.GET_VERSION) = RESULT_CHAR +:+ payload +:+ CRLF →
  let st1 := snd (open st) in
  let st2 := snd (_get_version st1) in
  let st3 := snd (close st2) in
  fst (open st) = Return tt
  ∧ fst (_get_version st1) = Return payload
  ∧ fst (close st2) = Return tt
  ∧ line (world st3) = None
  ∧ wire (world st3) = (wire (world st) ++ [frame NovaCommands.GET_VERSION])%list
  ∧ clock (world st3) = (clock (world st) + 500)%N.
Proof.
  intros Hc Hp Ho Hoff Hpay Hi.
  assert (Hopen : open st =
                  (Return tt, mkSt (<["connection" := PySerial]> (self st))
                                (with_line (Some "") (world st)))).
  { unfold open. guard_is Hoff. apply (setup_connection_run st p); assumption. }
  cbv zeta. rewrite Hopen. cbn [fst snd].
  set (st1 := mkSt (<["connection" := PySerial]> (self st)) (with_line (Some "") (world st))).
  assert (Hoff1 : simulation_active st1 = false).
  { revert Hoff. unfold simulation_active, getattr, st1. cbn [self].
    rewrite lookup_insert_ne by discriminate.
    destruct (self st !! "simulate_device"); [exact (λ H, H)|].
    destruct (class_dict !! "simulate_device"); exact (λ H, H). }
  assert (Hc1 : connected st1) by (split; [apply lookup_insert_eq | reflexivity]).
  rewrite (get_version_real st1 Hoff1).
  rewrite (send_receive_payload st1 Hc1 NovaCommands.GET_VERSION payload Hpay) by exact Hi.
  cbn [fst snd].
  set (st2 := exchanged NovaCommands.GET_VERSION st1).
  assert (Hoff2 : simulation_active st2 = false)
    by (unfold st2; rewrite exchanged_active; exact Hoff1).
  assert (Hclose : close st2 = (Return tt, set_world (with_line None) st2)).
  { unfold close. guard_is Hoff2.
    rewrite bind_run, (getattr_instance "connection" PySerial) by apply Hc1. reflexivity. }
  rewrite Hclose. cbn [fst snd]. repeat split; reflexivity.
Qed.

Lemma open_query_close_witness :
  let st := snd (setattr "simulate_device" (PyBool false)
                   (construct (PyStr "COM1") (PyInt 9600) (scripted ("*NOVA 2.44" +:+ CRLF) []))) in
  let st1 := snd (open st) in
  let st2 := snd (_get_version st1) in
  let st3 := snd (close st2) in
  fst (open st) = Return tt
  ∧ fst (_get_version st1) = Return "NOVA 2.44"
  ∧ fst (close st2) = Return tt
  ∧ line (world st3) = None
  ∧ wire (world st3) = (wire (world st) ++ [frame NovaCommands.GET_VERSION])%list
  ∧ clock (world st3) = (clock (world st) + 500)%N.
Proof.
  apply (open_query_close
           (snd (setattr "simulate_device" (PyBool false)
                   (construct (PyStr "COM1") (PyInt 9600) (scripted ("*NOVA 2.44" +:+ CRLF) []))))
           "COM1" "NOVA 2.44");
    first [reflexivity | unfold configured; repeat constructor; eexists; reflexivity].
Defined.
